(** * pycsob: request signing and response validation

    A shallow embedding of [pycsob/utils.py] and of the parts of
    [pycsob/client.py] that build signed payloads and validate what the
    gateway sends back, followed by the properties of the signing protocol.

    Python values are an inductive type, an [OrderedDict] is an association
    list that keeps insertion order, a [str] is the Rocq string of its UTF-8
    text, [bytes] is a list of bytes, and a Python exception is a constructor
    of [exn] carried by [result]. *)

From Stdlib Require Import List String Ascii ZArith Bool Lia DecimalString.
From Stdlib.Strings Require Import Byte.
Import ListNotations.
Local Open Scope string_scope.
Local Open Scope list_scope.

(** ** Python values

    The values of the gateway's fields and of the JSON bodies: None,
    booleans, integers, strings, lists and dicts.  The gateway has no
    fractional numbers. *)

#[warnings="-register-all"]
Inductive value : Type :=
| VNone : value
| VBool : bool -> value
| VInt : Z -> value
| VStr : string -> value
| VList : list value -> value
| VDict : list (string * value) -> value.

(** A [dict] or [OrderedDict]: the (key, value) pairs in insertion order. *)
Abbreviation odict := (list (string * value)).
Definition bytes : Type := list byte.

(** ** Exceptions *)

Inductive exn : Type :=
| CsobBaseException (raised_exception : exn)
| CsobJSONDecodeError (msg : string)
| CsobVerifyError (msg : string)
| HTTPError (status : Z)
| RequestException (what : string)
| JSONDecodeError
| KeyError (key : string)
| TypeError
| AttributeError
| ValueError
| binascii_Error.

Inductive result (A : Type) : Type :=
| Ok (a : A)
| Raise (e : exn).
Arguments Ok {A} a.
Arguments Raise {A} e.

Definition bind {A B : Type} (c : result A) (k : A -> result B) : result B :=
  match c with
  | Ok a => k a
  | Raise e => Raise e
  end.

Notation "x <- c ;; k" := (bind c (fun x => k))
  (at level 61, c at next level, right associativity).

(** [try: body except handler]: the handler returns [None] for an exception
    that no [except] clause matches. *)
Definition try_except {A : Type} (body : result A)
    (handler : exn -> option (result A)) : result A :=
  match body with
  | Ok a => Ok a
  | Raise e => match handler e with
               | Some r => r
               | None => Raise e
               end
  end.

(** ** Ordered dictionaries *)

Definition od_keys (d : odict) : list string := map fst d.
Definition od_values (d : odict) : list value := map snd d.

(** [d.get(k)], [None] when the key is absent. *)
Fixpoint od_get (k : string) (d : odict) : option value :=
  match d with
  | [] => None
  | (k', v) :: rest => if String.eqb k k' then Some v else od_get k rest
  end.

(** [k in d] *)
Definition od_mem (k : string) (d : odict) : bool :=
  match od_get k d with
  | Some _ => true
  | None => false
  end.

(** [d[k] = v]: an existing key keeps its position, a new key goes last. *)
Fixpoint od_set (k : string) (v : value) (d : odict) : odict :=
  match d with
  | [] => [(k, v)]
  | (k', v') :: rest =>
      if String.eqb k k' then (k', v) :: rest else (k', v') :: od_set k v rest
  end.

(** [del d[k]] *)
Definition od_remove (k : string) (d : odict) : odict :=
  filter (fun kv => negb (String.eqb k (fst kv))) d.

(** [OrderedDict(pairs)] *)
Definition OrderedDict (pairs : list (string * value)) : odict :=
  fold_left (fun d kv => od_set (fst kv) (snd kv) d) pairs [].

(** ** Builtins on values *)

Fixpoint value_eqb (a b : value) {struct a} : bool :=
  match a, b with
  | VNone, VNone => true
  | VBool x, VBool y => Bool.eqb x y
  | VInt x, VInt y => Z.eqb x y
  | VStr x, VStr y => String.eqb x y
  | VList l, VList m =>
      (fix go (l m : list value) {struct l} : bool :=
         match l, m with
         | [], [] => true
         | x :: l', y :: m' => value_eqb x y && go l' m'
         | _, _ => false
         end) l m
  | VDict l, VDict m =>
      (fix go (l m : list (string * value)) {struct l} : bool :=
         match l, m with
         | [], [] => true
         | (k, x) :: l', (k', y) :: m' =>
             String.eqb k k' && value_eqb x y && go l' m'
         | _, _ => false
         end) l m
  | _, _ => false
  end.

(** [v in candidates] for a tuple of candidates none of which is a number or
    a non-empty container: on those Python's [==] is structural equality. *)
Definition py_in (v : value) (candidates : list value) : bool :=
  existsb (value_eqb v) candidates.
Arguments py_in : simpl never.

Definition is_None (v : value) : bool :=
  match v with
  | VNone => true
  | _ => false
  end.

(** Iterating a value: a list yields its elements, a dict its keys, a str
    its characters (one per byte of the text); anything else is not
    iterable. *)
Definition py_iter (v : value) : result (list value) :=
  match v with
  | VList l => Ok l
  | VDict d => Ok (map (fun kv => VStr (fst kv)) d)
  | VStr s => Ok (map (fun c => VStr (String c EmptyString)) (list_ascii_of_string s))
  | _ => Raise TypeError
  end.

(** [one.values()] *)
Definition py_values (one : value) : result (list value) :=
  match one with
  | VDict d => Ok (od_values d)
  | _ => Raise AttributeError
  end.

(** [one[k]] for a string key [k] *)
Definition py_getitem (one : value) (k : string) : result value :=
  match one with
  | VDict d => match od_get k d with
               | Some v => Ok v
               | None => Raise (KeyError k)
               end
  | _ => Raise TypeError
  end.

(** [data.pop(k)]: the value and the dict without the key. *)
Definition py_pop (data : value) (k : string) : result (value * odict) :=
  match data with
  | VDict d => match od_get k d with
               | Some v => Ok (v, od_remove k d)
               | None => Raise (KeyError k)
               end
  | VList _ => Raise TypeError
  | _ => Raise AttributeError
  end.

(** [str(z)] for an int *)
Definition str_of_Z (z : Z) : string := NilZero.string_of_int (Z.to_int z).

(** [s.lower()] on ASCII text *)
Definition lower_ascii (c : ascii) : ascii :=
  let n := nat_of_ascii c in
  if (65 <=? n)%nat && (n <=? 90)%nat then ascii_of_nat (n + 32) else c.

Fixpoint py_lower (s : string) : string :=
  match s with
  | EmptyString => EmptyString
  | String c rest => String (lower_ascii c) (py_lower rest)
  end.

(** [msg.encode('utf-8')]: a str is kept as its UTF-8 text. *)
Definition encode_utf8 (s : string) : bytes := list_byte_of_string s.

(** ** What the modules import

    The libraries behind [Crypto], [base64] and the builtins [repr] and
    [int] are not part of the repository: their operations are the fields of
    [Platform].  A failing operation returns [None]. *)

Class Platform : Type := {
  digest : Type;
  rsakey : Type;
  SHA_new : bytes -> digest;
  RSA_importKey : string -> option rsakey;
  PKCS1_v1_5_sign : rsakey -> digest -> option bytes;
  PKCS1_v1_5_verify : rsakey -> digest -> bytes -> bool;
  b64encode : bytes -> string;
  b64decode : string -> option bytes;
  py_repr : value -> string;
  py_int_of_str : string -> option Z
}.

(** [conf.RESPONSE_KEYS], the ordered tuple of recognized response fields. *)
Class Conf : Type := {
  RESPONSE_KEYS : list string
}.

(** Modelled from the spec: [conf.EMPTY_VALUES] is not under src; the spec
    gives the empty-value set as None, the empty string and the empty
    list. *)
Definition EMPTY_VALUES : list value := [VNone; VStr ""; VList []].

Section Utils.

Context {platform : Platform} {conf : Conf}.

(** [str(v)] *)
Definition py_str (v : value) : string :=
  match v with
  | VNone => "None"
  | VBool true => "True"
  | VBool false => "False"
  | VInt z => str_of_Z z
  | VStr s => s
  | VList _ | VDict _ => py_repr v
  end.

Definition str_or_jsbool (v : value) : string :=
  match v with
  | VBool _ => py_lower (py_str v)
  | _ => py_str v
  end.

(** The loop [for one in payload['cart']: cart_msg.extend(one.values())]. *)
Fixpoint extend_cart_msg (cart_msg : list value) (cart : list value)
    : result (list value) :=
  match cart with
  | [] => Ok cart_msg
  | one :: rest =>
      vs <- py_values one ;;
      extend_cart_msg (cart_msg ++ vs) rest
  end.

(** [{k: v for k, v in payload.items() if v is not None}] *)
Definition without_None (payload : odict) : odict :=
  filter (fun kv => negb (is_None (snd kv))) payload.

Definition mk_msg_for_sign (payload : odict) : result bytes :=
  let payload := without_None payload in
  payload <-
    match od_get "cart" payload with
    | Some cart =>
        if negb (py_in cart EMPTY_VALUES) then
          items <- py_iter cart ;;
          cart_msg <- extend_cart_msg [] items ;;
          Ok (od_set "cart"
                (VStr (String.concat "|" (map str_or_jsbool cart_msg)))
                payload)
        else Ok payload
    | None => Ok payload
    end ;;
  let msg := String.concat "|" (map str_or_jsbool (od_values payload)) in
  Ok (encode_utf8 msg).

Definition importKey (key : string) : result rsakey :=
  match RSA_importKey key with
  | Some k => Ok k
  | None => Raise ValueError
  end.

Definition sign (payload : odict) (key : string) : result string :=
  msg <- mk_msg_for_sign payload ;;
  let h := SHA_new msg in
  k <- importKey key ;;
  match PKCS1_v1_5_sign k h with
  | Some s => Ok (b64encode s)
  | None => Raise TypeError
  end.

(** [b64decode(signature)]: the signature is whatever the caller found in
    the decoded body. *)
Definition py_b64decode (signature : value) : result bytes :=
  match signature with
  | VStr s => match b64decode s with
              | Some b => Ok b
              | None => Raise binascii_Error
              end
  | _ => Raise TypeError
  end.

Definition verify (payload : odict) (signature : value) (pubkey : string)
    : result bool :=
  msg <- mk_msg_for_sign payload ;;
  key <- importKey pubkey ;;
  let h := SHA_new msg in
  s <- py_b64decode signature ;;
  Ok (PKCS1_v1_5_verify key h s).

Definition mk_payload (key : string) (pairs : list (string * value))
    : result odict :=
  let payload :=
    OrderedDict
      (filter (fun kv => negb (py_in (snd kv) EMPTY_VALUES)) pairs) in
  signature <- sign payload key ;;
  Ok (od_set "signature" (VStr signature) payload).

End Utils.

(** ** The response object

    [requests.Response] as far as the validator looks at it: the status
    code, what [response.json()] decodes to ([None] when the body is not
    JSON), and the two attributes the validator attaches. *)

Record Response : Type := mkResponse {
  status_code : Z;
  json_body : option value;
  resp_payload : option odict;
  resp_extensions : option (list odict)
}.

Definition raise_for_status (response : Response) : result unit :=
  if (400 <=? status_code response)%Z && (status_code response <? 600)%Z
  then Raise (HTTPError (status_code response))
  else Ok tt.

Definition response_json (response : Response) : result value :=
  match json_body response with
  | Some data => Ok data
  | None => Raise JSONDecodeError
  end.

(** Code that may raise and that updates the response object in place. *)
Definition M (A : Type) : Type := Response -> Response * result A.

Definition ret {A : Type} (a : A) : M A := fun r => (r, Ok a).
Definition raise {A : Type} (e : exn) : M A := fun r => (r, Raise e).
Definition lift {A : Type} (c : result A) : M A := fun r => (r, c).

Definition bindM {A B : Type} (c : M A) (k : A -> M B) : M B :=
  fun r =>
    match c r with
    | (r', Ok a) => k a r'
    | (r', Raise e) => (r', Raise e)
    end.

Notation "x <~ c ;; k" := (bindM c (fun x => k))
  (at level 61, c at next level, right associativity).
Notation "c ;;; k" := (bindM c (fun _ => k))
  (at level 61, right associativity).

Definition get_response : M Response := fun r => (r, Ok r).

Definition with_extensions (r : Response) (exts : list odict) : Response :=
  mkResponse (status_code r) (json_body r) (resp_payload r) (Some exts).

Definition with_payload (r : Response) (payload : odict) : Response :=
  mkResponse (status_code r) (json_body r) (Some payload) (resp_extensions r).

(** [response.extensions = exts] *)
Definition set_extensions (exts : list odict) : M unit :=
  fun r => (with_extensions r exts, Ok tt).

(** [response.payload = payload] *)
Definition set_payload (payload : odict) : M unit :=
  fun r => (with_payload r payload, Ok tt).

(** [response.extensions.append(o)] *)
Definition append_extension (o : odict) : M unit :=
  fun r =>
    match resp_extensions r with
    | Some exts => (with_extensions r (exts ++ [o]), Ok tt)
    | None => (r, Raise AttributeError)
    end.

(** The loop [for k in keys: if k in data: o[k] = data[k]]. *)
Fixpoint copy_keys (keys : list string) (data : odict) (o : odict) : odict :=
  match keys with
  | [] => o
  | k :: rest =>
      match od_get k data with
      | Some v => copy_keys rest data (od_set k v o)
      | None => copy_keys rest data o
      end
  end.

Definition maskclnrp_keys : list string :=
  ["extension"; "dttm"; "maskedCln"; "expiration"; "longMaskedCln"].

Section Validation.

Context {platform : Platform} {conf : Conf}.

(** The body of [for one in data['extensions']].  Once [one['extension']]
    has succeeded [one] is a dict, so the last branch is never taken. *)
Definition verify_extension (key : string) (one : value) : M unit :=
  ext <~ lift (py_getitem one "extension") ;;
  if py_in ext [VStr "maskClnRP"; VStr "maskCln"] then
    match one with
    | VDict d =>
        let o := copy_keys maskclnrp_keys d [] in
        signature <~ lift (py_getitem one "signature") ;;
        ok <~ lift (verify o signature key) ;;
        if ok then append_extension o
        else raise (CsobVerifyError "Cannot verify masked card extension response")
    | _ => raise TypeError
    end
  else ret tt.

Fixpoint verify_extensions (key : string) (exts : list value) : M unit :=
  match exts with
  | [] => ret tt
  | one :: rest => verify_extension key one ;;; verify_extensions key rest
  end.

(** The block under [# extensions]. *)
Definition validate_extensions (key : string) (data : odict) : M unit :=
  if od_mem "extensions" data then
    exts <~ lift (py_getitem (VDict data) "extensions") ;;
    items <~ lift (py_iter exts) ;;
    verify_extensions key items
  else ret tt.

(** The [try] block of [validate_response] with its two [except] clauses. *)
Definition decode_response (response : Response) : result value :=
  try_except
    (_ <- raise_for_status response ;; response_json response)
    (fun e =>
       match e with
       | JSONDecodeError =>
           Some (Raise (CsobJSONDecodeError "Cannot decode JSON in response"))
       | HTTPError _ => Some (Raise (CsobBaseException e))
       | _ => None
       end).

(** The final state of the response object, and the object returned or the
    exception raised. *)
Definition validate_response (response : Response) (key : string)
    : Response * result Response :=
  (data <~ lift (decode_response response) ;;
   popped <~ lift (py_pop data "signature") ;;
   let signature := fst popped in
   let data := snd popped in
   let payload := copy_keys RESPONSE_KEYS data [] in
   ok <~ lift (verify payload signature key) ;;
   if negb ok then raise (CsobVerifyError "Cannot verify response")
   else
     set_extensions [] ;;;
     set_payload payload ;;;
     validate_extensions key data ;;;
     get_response) response.

(** ** The client *)

Record CsobClient : Type := mkCsobClient {
  merchant_id : string;
  base_url : string;
  key : string;
  pubkey : string
}.

(** [HTTPAdapter.send]: [super_send] is what the inherited [send] does, a
    response or an exception. *)
Definition HTTPAdapter_send (super_send : result Response) : result Response :=
  try_except super_send
    (fun e =>
       match e with
       | RequestException _ | HTTPError _ => Some (Raise (CsobBaseException e))
       | _ => None
       end).

(** The tail of every gateway operation of the client:
    [r = self._client.get(url)] (or [post], [put]) followed by
    [return utils.validate_response(r, self.pubkey)]. *)
Definition request_and_validate (self : CsobClient)
    (super_send : result Response) : result Response :=
  r <- HTTPAdapter_send super_send ;;
  snd (validate_response r (pubkey self)).

(** [int(v)] *)
Definition py_int (v : value) : result value :=
  match v with
  | VInt z => Ok (VInt z)
  | VBool b => Ok (VInt (if b then 1 else 0))
  | VStr s => match py_int_of_str s with
              | Some z => Ok (VInt z)
              | None => Raise ValueError
              end
  | _ => Raise TypeError
  end.

(** The loop of [gateway_return]. *)
Fixpoint gateway_return_fields (keys : list string) (datadict : odict)
    (o : odict) : result odict :=
  match keys with
  | [] => Ok o
  | k :: rest =>
      match od_get k datadict with
      | Some v =>
          v' <- (if existsb (String.eqb k) ["resultCode"; "paymentStatus"]
                 then py_int v else Ok v) ;;
          gateway_return_fields rest datadict (od_set k v' o)
      | None => gateway_return_fields rest datadict o
      end
  end.

Definition gateway_return (self : CsobClient) (datadict : odict)
    : result odict :=
  o <- gateway_return_fields RESPONSE_KEYS datadict [] ;;
  signature <- py_getitem (VDict datadict) "signature" ;;
  ok <- verify o signature (pubkey self) ;;
  if negb ok then Raise (CsobVerifyError "Unverified gateway return data")
  else Ok o.

End Validation.

(** ** Notions the properties are stated with *)

(** The invariant of a dict: no key occurs twice. *)
Fixpoint od_wf (d : odict) : bool :=
  match d with
  | [] => true
  | (k, _) :: rest => negb (existsb (String.eqb k) (od_keys rest)) && od_wf rest
  end.

Definition no_None (payload : odict) : bool :=
  forallb (fun kv => negb (is_None (snd kv))) payload.

Definition is_dict (v : value) : bool :=
  match v with
  | VDict _ => true
  | _ => false
  end.

(** The cart of the data model: a list of mappings. *)
Definition is_cart (v : value) : bool :=
  match v with
  | VList items => forallb is_dict items
  | _ => false
  end.

(** A payload of the data model: what stands under ['cart'], if anything,
    is an empty value or a list of mappings. *)
Definition cart_typed (payload : odict) : bool :=
  match od_get "cart" (without_None payload) with
  | Some v => py_in v EMPTY_VALUES || is_cart v
  | None => true
  end.

(** The status is not an error status: [raise_for_status] returns. *)
Definition http_ok (response : Response) : bool :=
  negb ((400 <=? status_code response)%Z && (status_code response <? 600)%Z).

(** The fields of [data] named by [keys], in the order of [keys]. *)
Definition select_keys (keys : list string) (data : odict) : odict :=
  flat_map (fun k => match od_get k data with
                     | Some v => [(k, v)]
                     | None => []
                     end) keys.

(** The values of all items of a cart, item after item. *)
Definition cart_item_values (cart : value) : list value :=
  match cart with
  | VList items =>
      flat_map (fun one => match one with
                           | VDict d => od_values d
                           | _ => []
                           end) items
  | _ => []
  end.

(** An extension entry of one of the two masked-card kinds. *)
Definition recognized (entry : odict) : bool :=
  match od_get "extension" entry with
  | Some kind => py_in kind [VStr "maskClnRP"; VStr "maskCln"]
  | None => false
  end.

(** The five-field sub-object of an extension entry. *)
Definition sub_object (entry : odict) : odict :=
  select_keys maskclnrp_keys entry.

(** The keys [gateway_return] converts with [int]. *)
Definition int_typed (k : string) : bool :=
  existsb (String.eqb k) ["resultCode"; "paymentStatus"].

Section Notions.

Context {platform : Platform} {conf : Conf}.

(** The recognized fields of a decoded body, in the recognized order, the
    signature left out. *)
Definition recognized_fields (body : odict) : odict :=
  select_keys RESPONSE_KEYS (od_remove "signature" body).

(** The entry carries a signature that verifies over its sub-object. *)
Definition ext_verifies (key : string) (entry : odict) : Prop :=
  exists signature,
    od_get "signature" entry = Some signature /\
    verify (sub_object entry) signature key = Ok true.

(** The entry carries a signature that does not verify. *)
Definition ext_rejected (key : string) (entry : odict) : Prop :=
  exists signature,
    od_get "signature" entry = Some signature /\
    verify (sub_object entry) signature key = Ok false.

(** The entry declares its kind and, when the kind is recognized, its
    signature verifies. *)
Definition ext_passes (key : string) (entry : odict) : Prop :=
  od_mem "extension" entry = true /\
  (recognized entry = true -> ext_verifies key entry).

(** The response arrived with a good status, its body is the JSON object
    [body], and the signature of the body verifies over the recognized
    fields. *)
Definition primary_verified (response : Response) (key : string)
    (body : odict) : Prop :=
  http_ok response = true /\
  json_body response = Some (VDict body) /\
  exists signature,
    od_get "signature" body = Some signature /\
    verify (recognized_fields body) signature key = Ok true.

(** [int(v)] where it succeeds. *)
Definition int_value (v : value) : Z :=
  match py_int v with
  | Ok (VInt z) => z
  | _ => 0%Z
  end.

(** A field as [gateway_return] hands it back. *)
Definition retype (field : string * value) : string * value :=
  (fst field,
   if int_typed (fst field) then VInt (int_value (snd field)) else snd field).

(** [int] accepts the value of every int-typed field. *)
Definition ints_convert (fields : odict) : Prop :=
  Forall (fun kv => int_typed (fst kv) = true ->
                    exists z, py_int (snd kv) = Ok (VInt z)) fields.

(** The canonical message in the words of the specification: every
    top-level value stringified, a non-empty cart replaced by the join of
    its items' values, the segments joined by [|] and encoded. *)
Definition spec_stringify (v : value) : string :=
  match v with
  | VBool true => "true"
  | VBool false => "false"
  | _ => py_str v
  end.

Definition spec_segment (field : string * value) : string :=
  if String.eqb (fst field) "cart" && negb (py_in (snd field) EMPTY_VALUES)
  then String.concat "|" (map spec_stringify (cart_item_values (snd field)))
  else spec_stringify (snd field).

Definition spec_canonical_message (payload : odict) : bytes :=
  encode_utf8 (String.concat "|" (map spec_segment payload)).

(** [priv] and [pub] import as a matching pair: whatever digest the private
    key signs, the public key verifies. *)
Definition valid_key_pair (priv pub : string) : Prop :=
  exists sk pk,
    RSA_importKey priv = Some sk /\
    RSA_importKey pub = Some pk /\
    forall h, exists s,
      PKCS1_v1_5_sign sk h = Some s /\ PKCS1_v1_5_verify pk h s = true.

(** [b64decode] undoes [b64encode]. *)
Definition base64_round_trip : Prop :=
  forall b, b64decode (b64encode b) = Some b.

(** A PKCS#1 v1.5 signature verifies against one digest at most. *)
Definition signature_binds_digest : Prop :=
  forall k h h' s,
    PKCS1_v1_5_verify k h s = true ->
    PKCS1_v1_5_verify k h' s = true ->
    h = h'.

End Notions.

(** ** A small platform to run the model on

    Textbook RSA with the modulus 3233 = 61 * 53 on one-byte digests, a
    hexadecimal text codec in the place of base64, and decimal [int].  It
    gives the closed examples below something to compute with. *)

Definition Z_of_byte (b : byte) : Z := Z.of_N (Byte.to_N b).

Definition byte_of_Z (z : Z) : byte :=
  match Byte.of_N (Z.to_N (z mod 256)) with
  | Some b => b
  | None => x00
  end.

Definition toy_hash (msg : bytes) : byte :=
  byte_of_Z (fold_left (fun acc b => (31 * acc + Z_of_byte b) mod 256) msg 7)%Z.

Fixpoint powmod (b : Z) (e : positive) (n : Z) : Z :=
  match e with
  | xH => b mod n
  | xO e' => let r := powmod b e' n in (r * r) mod n
  | xI e' => let r := powmod b e' n in (r * r * b) mod n
  end%Z.

Record toy_key : Type := mkToyKey {
  modulus : Z;
  public_exponent : positive;
  private_exponent : option positive
}.

Definition toy_importKey (pem : string) : option toy_key :=
  if String.eqb pem "TOY PRIVATE KEY" then Some (mkToyKey 3233 17 (Some 2753%positive))
  else if String.eqb pem "TOY PUBLIC KEY" then Some (mkToyKey 3233 17 None)
  else None.

Definition toy_sign (k : toy_key) (h : byte) : option bytes :=
  match private_exponent k with
  | Some d =>
      let s := powmod (Z_of_byte h) d (modulus k) in
      Some [byte_of_Z (s / 256); byte_of_Z s]
  | None => None
  end.

Definition toy_verify (k : toy_key) (h : byte) (signature : bytes) : bool :=
  match signature with
  | [hi; lo] =>
      let s := (256 * Z_of_byte hi + Z_of_byte lo)%Z in
      (s <? modulus k)%Z
      && (powmod s (public_exponent k) (modulus k) =? Z_of_byte h)%Z
  | _ => false
  end.

Definition hex_digit (n : Z) : ascii :=
  nth (Z.to_nat n)
      (list_ascii_of_string "0123456789abcdef") "0"%char.

Definition hex_value (c : ascii) : option Z :=
  (fix find (i : Z) (l : list ascii) : option Z :=
     match l with
     | [] => None
     | c' :: rest => if Ascii.eqb c c' then Some i else find (i + 1)%Z rest
     end) 0%Z (list_ascii_of_string "0123456789abcdef").

Fixpoint hex_encode (b : bytes) : string :=
  match b with
  | [] => EmptyString
  | x :: rest =>
      String (hex_digit (Z_of_byte x / 16))
        (String (hex_digit (Z_of_byte x mod 16)) (hex_encode rest))
  end.

Fixpoint hex_decode (s : string) : option bytes :=
  match s with
  | EmptyString => Some []
  | String c1 (String c2 rest) =>
      match hex_value c1, hex_value c2, hex_decode rest with
      | Some h, Some l, Some b => Some (byte_of_Z (16 * h + l) :: b)
      | _, _, _ => None
      end
  | String _ EmptyString => None
  end.

Definition toy_repr (v : value) : string :=
  match v with
  | VList _ => "[...]"
  | VDict _ => "{...}"
  | _ => ""
  end.

Definition toy_int_of_str (s : string) : option Z :=
  match NilZero.int_of_string s with
  | Some d => Some (Z.of_int d)
  | None => None
  end.

Definition toy_platform : Platform := {|
  digest := byte;
  rsakey := toy_key;
  SHA_new := toy_hash;
  RSA_importKey := toy_importKey;
  PKCS1_v1_5_sign := toy_sign;
  PKCS1_v1_5_verify := toy_verify;
  b64encode := hex_encode;
  b64decode := hex_decode;
  py_repr := toy_repr;
  py_int_of_str := toy_int_of_str
|}.

(** The recognized response fields of the gateway's API, for the closed
    examples. *)
Definition gateway_conf : Conf := {|
  RESPONSE_KEYS :=
    ["payId"; "customerId"; "dttm"; "resultCode"; "resultMessage";
     "paymentStatus"; "authCode"; "merchantData"]
|}.

(** ** Data for the closed examples *)

Definition toy_priv : string := "TOY PRIVATE KEY".
Definition toy_pub : string := "TOY PUBLIC KEY".

(** What the gateway sends for [fields]: the fields and their signature. *)
Definition toy_signed (fields : odict) : odict :=
  match @mk_payload toy_platform toy_priv fields with
  | Ok signed => signed
  | Raise _ => []
  end.

Definition response_of (body : odict) : Response :=
  mkResponse 200 (Some (VDict body)) None None.

Definition two_item_cart : value :=
  VList [VDict [("name", VStr "Order in shop XYZ"); ("quantity", VInt 5);
                ("amount", VInt 12345)];
         VDict [("name", VStr "Postage"); ("quantity", VInt 1);
                ("amount", VInt 0)]].

Definition init_fields : odict :=
  [("merchantId", VStr "MERCHANT"); ("orderNo", VStr "666");
   ("totalAmount", VInt 12345); ("closePayment", VBool true);
   ("cart", two_item_cart); ("description", VStr "Order")].

Definition echo_pairs : list (string * value) :=
  [("merchantId", VStr "MERCHANT"); ("dttm", VStr "20230101120000");
   ("description", VStr ""); ("merchantData", VNone); ("cart", VList [])].

Definition status_fields : odict :=
  [("payId", VStr "34ae55eb69e2cBF"); ("dttm", VStr "20230101120000");
   ("resultCode", VInt 0); ("resultMessage", VStr "OK");
   ("paymentStatus", VInt 7); ("authCode", VStr "F7A23E")].

Definition ext_fields (kind : string) : odict :=
  [("extension", VStr kind); ("dttm", VStr "20230101120000");
   ("maskedCln", VStr "****1234"); ("expiration", VStr "12/20");
   ("longMaskedCln", VStr "PPPPPP****XXXX")].

Definition ext_maskClnRP : odict := toy_signed (ext_fields "maskClnRP").
Definition ext_maskCln : odict := toy_signed (ext_fields "maskCln").
Definition ext_other : odict := [("extension", VStr "other"); ("note", VStr "n")].
Definition ext_forged : odict :=
  ext_fields "maskCln" ++ [("signature", VStr "0000")].
Definition ext_unsigned : odict := ext_fields "maskCln".

Definition status_body (entries : list odict) : odict :=
  toy_signed status_fields ++ [("extensions", VList (map VDict entries))].

(** A body whose result code and payment status travel as numeric
    strings. *)
Definition stringly_fields : odict :=
  [("resultCode", VStr "0"); ("paymentStatus", VStr "7");
   ("authCode", VStr "F7A23E")].

Definition flag_true : odict := [("closePayment", VBool true)].
Definition flag_text : odict := [("closePayment", VStr "true")].
Definition flag_false : odict := [("closePayment", VBool false)].

Definition forged_body : odict := status_fields ++ [("signature", VStr "0000")].

Definition toy_client : CsobClient :=
  mkCsobClient "MERCHANT" "https://localhost" toy_priv toy_pub.

(** ** Further notions *)

(** What flattening a non-empty cart raises: a number is not iterable, the
    characters of a str, the keys of a dict and list items that are not
    dicts have no [values]. *)
Definition cart_error (cart : value) : option exn :=
  match cart with
  | VNone | VBool _ | VInt _ => Some TypeError
  | VStr EmptyString => None
  | VStr _ => Some AttributeError
  | VList items => if forallb is_dict items then None else Some AttributeError
  | VDict [] => None
  | VDict _ => Some AttributeError
  end.

(** The payload with its fields renamed by [f]. *)
Definition rename_fields (f : string -> string) (payload : odict) : odict :=
  map (fun kv => (f (fst kv), snd kv)) payload.

Section FurtherNotions.

Context {platform : Platform} {conf : Conf}.

(** [o] is the sub-object of an entry of a recognized kind found under
    'extensions' in [body], and the signature of that entry verifies over
    it. *)
Definition verified_extension (key : string) (body : odict) (o : odict)
    : Prop :=
  exists listed items entry signature,
    od_get "extensions" body = Some listed /\
    py_iter listed = Ok items /\
    In (VDict entry) items /\
    recognized entry = true /\
    o = sub_object entry /\
    od_get "signature" entry = Some signature /\
    verify o signature key = Ok true.

End FurtherNotions.

(** Unfolding the operations on the response object. *)
Ltac run_M :=
  unfold bindM, lift, ret, raise, get_response, set_extensions, set_payload,
    append_extension.

(** ** Client operations: the payloads that are signed and sent *)

(** A byte that continues a character of a UTF-8 text. *)
Definition is_continuation (a : ascii) : bool :=
  let n := nat_of_ascii a in Nat.leb 128 n && Nat.ltb n 192.

(** [len(s)] of a str: the number of its characters. *)
Fixpoint py_len (s : string) : nat :=
  match s with
  | EmptyString => 0
  | String a rest => if is_continuation a then py_len rest else S (py_len rest)
  end.

(** [s[:n]] of a str: its first [n] characters. *)
Fixpoint py_prefix (n : nat) (s : string) : string :=
  match s with
  | EmptyString => EmptyString
  | String a rest =>
      if is_continuation a then String a (py_prefix n rest)
      else match n with
           | O => EmptyString
           | S n' => String a (py_prefix n' rest)
           end
  end.

(** The truth value of [v], which [not v] negates. *)
Definition py_truthy (v : value) : bool :=
  match v with
  | VNone => false
  | VBool b => b
  | VInt z => negb (Z.eqb z 0)
  | VStr s => negb (String.eqb s "")
  | VList items => match items with [] => false | _ :: _ => true end
  | VDict d => match d with [] => false | _ :: _ => true end
  end.

Section Client.

Context {platform : Platform} {conf : Conf}.

(** [CsobClient.payment_init] up to the request: the check of the
    description, the cart made up when none is given, and the signed payload
    that is posted.  [description] is a str, and [now] is what [utils.dttm()]
    returns, the clock read as fourteen digits.  The options come in the
    order of the signature of the method; their defaults are those of
    [payment_init_default] below. *)
Definition payment_init_payload (self : CsobClient) (now : string)
    (order_no total_amount return_url : value) (description : string)
    (merchant_data cart customer_id currency language close_payment
     return_method pay_operation ttl_sec logo_version
     color_scheme_version : value) : result odict :=
  if Nat.ltb 255 (py_len description) then Raise ValueError
  else
    let cart :=
      if negb (py_truthy cart) then
        VList [VDict [("name", VStr (py_prefix 20 description));
                      ("quantity", VInt 1);
                      ("amount", total_amount)]]
      else cart in
    mk_payload (key self)
      [("merchantId", VStr (merchant_id self));
       ("orderNo", VStr (py_str order_no));
       ("dttm", VStr now);
       ("payOperation", pay_operation);
       ("payMethod", VStr "card");
       ("totalAmount", total_amount);
       ("currency", currency);
       ("closePayment", close_payment);
       ("returnUrl", return_url);
       ("returnMethod", return_method);
       ("cart", cart);
       ("description", VStr description);
       ("merchantData", merchant_data);
       ("customerId", customer_id);
       ("language", language);
       ("ttlSec", ttl_sec);
       ("logoVersion", logo_version);
       ("colorSchemeVersion", color_scheme_version)].

(** The call with the four positional arguments only. *)
Definition payment_init_default (self : CsobClient) (now : string)
    (order_no total_amount return_url : value) (description : string)
    : result odict :=
  payment_init_payload self now order_no total_amount return_url description
    VNone VNone VNone (VStr "CZK") (VStr "CZ") (VBool true) (VStr "POST")
    (VStr "payment") (VInt 600) VNone VNone.

(** [CsobClient.req_payload]: [kwargs] are the keyword arguments in the
    order they were given. *)
Definition req_payload (self : CsobClient) (now : string) (pay_id : value)
    (kwargs : odict) : result odict :=
  let pairs :=
    [("merchantId", VStr (merchant_id self));
     ("payId", pay_id);
     ("dttm", VStr now)] in
  let pairs :=
    fold_left
      (fun pairs kv =>
         if negb (py_in (snd kv) EMPTY_VALUES) then pairs ++ [kv] else pairs)
      kwargs pairs in
  mk_payload (key self) pairs.

(** The payloads of [payment_reverse], [payment_close] and
    [payment_refund]. *)
Definition payment_reverse_payload (self : CsobClient) (now : string)
    (pay_id : value) : result odict :=
  req_payload self now pay_id [].

Definition payment_close_payload (self : CsobClient) (now : string)
    (pay_id total_amount : value) : result odict :=
  req_payload self now pay_id [("totalAmount", total_amount)].

Definition payment_refund_payload (self : CsobClient) (now : string)
    (pay_id amount : value) : result odict :=
  req_payload self now pay_id [("amount", amount)].

End Client.

(** The cart of one item that stands for an order without a cart. *)
Definition one_item_cart (name : string) (total_amount : value) : value :=
  VList [VDict [("name", VStr name); ("quantity", VInt 1);
                ("amount", total_amount)]].

(** ** Card providers: [PROVIDERS] and [get_card_provider]

    The lookup goes by single characters, so here a str is the list of its
    code points.  A compiled pattern is a [regex]; [re_run] gives every way
    the pattern can match from a position, as the position reached and the
    characters left, and [rx.match(s)] succeeds when there is one. *)

Inductive charclass : Type :=
| Lit (c : N)
| Range (lo hi : N)
| OneOf (cs : list N)
| Digit.

Inductive regex : Type :=
| Eps
| Caret
| Dollar
| Char (cl : charclass)
| Cat (r1 r2 : regex)
| Alt (r1 r2 : regex).

(** [d] tells the characters that [\d] matches. *)
Definition in_class (d : N -> bool) (cl : charclass) (c : N) : bool :=
  match cl with
  | Lit c' => N.eqb c c'
  | Range lo hi => N.leb lo c && N.leb c hi
  | OneOf cs => existsb (N.eqb c) cs
  | Digit => d c
  end.

Definition re_state : Type := (nat * list N)%type.

(** [^] matches at position 0, [$] at the end and before a final newline. *)
Fixpoint re_run (d : N -> bool) (r : regex) (st : re_state) : list re_state :=
  match r with
  | Eps => [st]
  | Caret => match fst st with
             | O => [st]
             | S _ => []
             end
  | Dollar => match snd st with
              | [] => [st]
              | [c] => if N.eqb c 10 then [st] else []
              | _ => []
              end
  | Char cl => match snd st with
               | c :: rest =>
                   if in_class d cl c then [(S (fst st), rest)] else []
               | [] => []
               end
  | Cat r1 r2 => flat_map (re_run d r2) (re_run d r1 st)
  | Alt r1 r2 => re_run d r1 st ++ re_run d r2 st
  end.

(** The truth value of [rx.match(s)]. *)
Definition re_match (d : N -> bool) (r : regex) (s : list N) : bool :=
  match re_run d r (O, s) with
  | [] => false
  | _ :: _ => true
  end.

(** Writing patterns: a character, [[a-b]], [[abc]], a sequence, a literal
    text, and [r{n}] as [n] copies of [r]. *)
Definition ch (a : ascii) : N := N_of_ascii a.
Definition lit (a : ascii) : regex := Char (Lit (ch a)).
Definition range (a b : ascii) : regex := Char (Range (ch a) (ch b)).
Definition one_of (s : string) : regex :=
  Char (OneOf (map ch (list_ascii_of_string s))).
Definition Seq (rs : list regex) : regex := fold_right Cat Eps rs.
Definition text (s : string) : regex := Seq (map lit (list_ascii_of_string s)).
Definition times (n : nat) (r : regex) : regex := Seq (repeat r n).

(** The characters of an ASCII text. *)
Definition chars_of (s : string) : list N := map ch (list_ascii_of_string s).

(** The provider constants and the table [conf.CARD_PROVIDERS] are not
    under src: the identifiers are any five values, the table is a partial
    map ([None] where the subscription raises), and [unicode_decimal] is
    the Unicode category of decimal digits that [\d] stands for. *)
Class CardConf : Type := {
  provider : Type;
  provider_name : Type;
  CARD_PROVIDER_VISA : provider;
  CARD_PROVIDER_AMEX : provider;
  CARD_PROVIDER_DINERS : provider;
  CARD_PROVIDER_JCB : provider;
  CARD_PROVIDER_MC : provider;
  CARD_PROVIDERS : provider -> option provider_name;
  unicode_decimal : N -> bool
}.

Section Cards.

Context {cards : CardConf}.

Local Open Scope char_scope.

Definition PROVIDERS : list (provider * regex) :=
  [(CARD_PROVIDER_VISA,
    (* ^4\d{5}$ *)
    Seq [Caret; lit "4"; times 5 (Char Digit); Dollar]);
   (CARD_PROVIDER_AMEX,
    (* ^3[47]\d{4}$ *)
    Seq [Caret; lit "3"; one_of "47"; times 4 (Char Digit); Dollar]);
   (CARD_PROVIDER_DINERS,
    (* ^3(?:0[0-5]|[68][0-9])[0-9]{4}$ *)
    Seq [Caret; lit "3";
         Alt (Seq [lit "0"; range "0" "5"]) (Seq [one_of "68"; range "0" "9"]);
         times 4 (range "0" "9"); Dollar]);
   (CARD_PROVIDER_JCB,
    (* ^(?:2131|1800|35[0-9]{2})[0-9]{2}$ *)
    Seq [Caret;
         Alt (text "2131")
             (Alt (text "1800") (Seq [text "35"; times 2 (range "0" "9")]));
         times 2 (range "0" "9"); Dollar]);
   (CARD_PROVIDER_MC,
    (* ^5[1-5][0-9]{4}|222[1-9][0-9]{2}|22[3-9][0-9]{4}|2[3-6][0-9]{5}
       |27[01][0-9]{4}|2720[0-9]{2}$ *)
    Alt (Seq [Caret; lit "5"; range "1" "5"; times 4 (range "0" "9")])
   (Alt (Seq [text "222"; range "1" "9"; times 2 (range "0" "9")])
   (Alt (Seq [text "22"; range "3" "9"; times 4 (range "0" "9")])
   (Alt (Seq [lit "2"; range "3" "6"; times 5 (range "0" "9")])
   (Alt (Seq [text "27"; one_of "01"; times 4 (range "0" "9")])
        (Seq [text "2720"; times 2 (range "0" "9"); Dollar]))))))].

(** The loop of [get_card_provider]: the first provider whose pattern
    matches. *)
Fixpoint first_provider (d : N -> bool) (providers : list (provider * regex))
    (s : list N) : option provider :=
  match providers with
  | [] => None
  | (provider_id, rx) :: rest =>
      if re_match d rx s then Some provider_id else first_provider d rest s
  end.

(** What is returned: [provider_id, conf.CARD_PROVIDERS[provider_id]] for
    the provider found, [None, None] for none.  The outer [None] is the
    subscription that raises. *)
Definition card_answer (found : option provider)
    : option (option provider * option provider_name) :=
  match found with
  | Some provider_id =>
      match CARD_PROVIDERS provider_id with
      | Some name => Some (Some provider_id, Some name)
      | None => None
      end
  | None => Some (None, None)
  end.

Definition get_card_provider (long_masked_number : list N)
    : option (option provider * option provider_name) :=
  card_answer
    (first_provider unicode_decimal PROVIDERS (firstn 6 long_masked_number)).

End Cards.

(** *** Notions for the card lookup *)

Fixpoint min_width (r : regex) : nat :=
  match r with
  | Eps | Caret | Dollar => 0
  | Char _ => 1
  | Cat r1 r2 => min_width r1 + min_width r2
  | Alt r1 r2 => Nat.min (min_width r1) (min_width r2)
  end.

Definition is_ascii_digit (c : N) : bool := N.leb 48 c && N.leb c 57.

(** An ASCII digit or a character that [\d] matches. *)
Definition digit_like (d : N -> bool) (c : N) : bool := is_ascii_digit c || d c.

Definition class_digits_only (cl : charclass) : bool :=
  match cl with
  | Lit c => is_ascii_digit c
  | Range lo hi => is_ascii_digit lo && is_ascii_digit hi
  | OneOf cs => forallb is_ascii_digit cs
  | Digit => true
  end.

(** Every character class of the pattern holds digits only. *)
Fixpoint digits_only (r : regex) : bool :=
  match r with
  | Eps | Caret | Dollar => true
  | Char cl => class_digits_only cl
  | Cat r1 r2 | Alt r1 r2 => digits_only r1 && digits_only r2
  end.

(** The class holds every ASCII digit. *)
Definition digit_wide (cl : charclass) : bool :=
  match cl with
  | Range lo hi => N.leb lo 48 && N.leb 57 hi
  | Digit => true
  | _ => false
  end.

(** The positions a match that starts at [p] can end at. *)
Fixpoint ends (r : regex) (p : nat) : list nat :=
  match r with
  | Eps | Caret | Dollar => [p]
  | Char _ => [S p]
  | Cat r1 r2 => flat_map (ends r2) (ends r1 p)
  | Alt r1 r2 => ends r1 p ++ ends r2 p
  end.

(** From position [n] on the pattern tests characters with digit-wide
    classes only. *)
Fixpoint tail_ok (n : nat) (r : regex) (p : nat) : bool :=
  match r with
  | Eps | Caret | Dollar => true
  | Char cl => Nat.ltb p n || digit_wide cl
  | Cat r1 r2 => tail_ok n r1 p && forallb (tail_ok n r2) (ends r1 p)
  | Alt r1 r2 => tail_ok n r1 p && tail_ok n r2 p
  end.

(** [l] and [l'] have one length, agree on their first [k] characters and
    hold ASCII digits after them. *)
Fixpoint same_head (k : nat) (l l' : list N) : Prop :=
  match l, l' with
  | [], [] => True
  | c :: l, c' :: l' =>
      match k with
      | O => is_ascii_digit c = true /\ is_ascii_digit c' = true /\
             same_head O l l'
      | S k' => c = c' /\ same_head k' l l'
      end
  | _, _ => False
  end.

Definition same_state (n : nat) (st st' : re_state) : Prop :=
  fst st = fst st' /\ same_head (n - fst st) (snd st) (snd st').

Definition ascii_digits : list N := [48; 49; 50; 51; 52; 53; 54; 55; 56; 57]%N.

(** The number that a text of ASCII digits writes. *)
Definition digits_value (l : list N) : N :=
  fold_left (fun acc c => (10 * acc + (c - 48))%N) l 0%N.

Definition between (lo hi x : N) : bool := N.leb lo x && N.leb x hi.

(** The position in the list of the first pattern that matches. *)
Fixpoint first_index (d : N -> bool) (rs : list regex) (s : list N) (i : nat)
    : option nat :=
  match rs with
  | [] => None
  | r :: rest => if re_match d r s then Some i else first_index d rest s (S i)
  end.

(** The table of bank identification numbers, by the number that the
    first four digits write, as positions in [PROVIDERS]. *)
Definition bin_index (prefix : N) : option nat :=
  if between 4000 4999 prefix then Some 0
  else if between 3400 3499 prefix || between 3700 3799 prefix then Some 1
  else if N.eqb prefix 2131 || N.eqb prefix 1800 || between 3500 3599 prefix
       then Some 3
  else if between 5100 5599 prefix || between 2221 2229 prefix
          || N.eqb prefix 2720
       then Some 4
  else None.

Definition index_eqb (a b : option nat) : bool :=
  match a, b with
  | Some x, Some y => Nat.eqb x y
  | None, None => true
  | _, _ => false
  end.

Section CardNotions.

Context {cards : CardConf}.

Definition rxs : list regex := map snd PROVIDERS.

(** The same table with the providers named: Visa for 4, American
    Express for 34 and 37, JCB for 2131, 1800 and 35, MasterCard for 51 to
    55, 2221 to 2229 and 2720, no provider for the rest. *)
Definition bin_provider (prefix : N) : option provider :=
  if between 4000 4999 prefix then Some CARD_PROVIDER_VISA
  else if between 3400 3499 prefix || between 3700 3799 prefix
       then Some CARD_PROVIDER_AMEX
  else if N.eqb prefix 2131 || N.eqb prefix 1800 || between 3500 3599 prefix
       then Some CARD_PROVIDER_JCB
  else if between 5100 5599 prefix || between 2221 2229 prefix
          || N.eqb prefix 2720
       then Some CARD_PROVIDER_MC
  else None.

End CardNotions.

(** Providers to run the lookup with. *)
Definition toy_cards : CardConf := {|
  provider := string;
  provider_name := string;
  CARD_PROVIDER_VISA := "VISA";
  CARD_PROVIDER_AMEX := "AMEX";
  CARD_PROVIDER_DINERS := "DINERS";
  CARD_PROVIDER_JCB := "JCB";
  CARD_PROVIDER_MC := "MC";
  CARD_PROVIDERS := fun p => Some ("card " ++ p)%string;
  unicode_decimal := is_ascii_digit
|}.

(** ** Data for the further examples *)

(** A signed body that carries [listed] under 'extensions'. *)
Definition body_listing (listed : value) : odict :=
  toy_signed status_fields ++ [("extensions", listed)].

Definition toy_now : string := "20230101120000".

Definition toy_description : string := "Order 666 from the shop XYZ".

(** What [payment_init] builds on the small platform for an order without
    a cart. *)
Definition toy_init_payload : odict :=
  match @payment_init_default toy_platform toy_client toy_now (VInt 666)
          (VInt 12345) (VStr "https://shop/return") toy_description with
  | Ok p => p
  | Raise _ => []
  end.

(** * Properties *)

#[local] Arguments String.eqb : simpl never.

(** ** Ordered dictionaries *)

Lemma od_set_fresh (k : string) (v : value) (d : odict) :
  existsb (String.eqb k) (od_keys d) = false ->
  od_set k v d = d ++ [(k, v)].
Proof.
  induction d as [|[k' v'] d IH]; simpl; intros H.
  - reflexivity.
  - apply orb_false_iff in H. destruct H as [Hk Hd].
    rewrite Hk. f_equal. apply IH. exact Hd.
Qed.

Lemma od_get_none_keys (k : string) (d : odict) :
  od_get k d = None <-> existsb (String.eqb k) (od_keys d) = false.
Proof.
  induction d as [|[k' v'] d IH]; simpl.
  - split; reflexivity.
  - destruct (String.eqb k k'); simpl.
    + split; discriminate.
    + exact IH.
Qed.

Lemma od_get_remove_neq (k k' : string) (d : odict) :
  String.eqb k' k = false ->
  od_get k (od_remove k' d) = od_get k d.
Proof.
  intros Hne. induction d as [|[k0 v0] d IH]; simpl.
  - reflexivity.
  - destruct (String.eqb k' k0) eqn:E0; simpl.
    + apply String.eqb_eq in E0. subst k0.
      rewrite String.eqb_sym, Hne. exact IH.
    + rewrite IH. reflexivity.
Qed.

Lemma od_get_remove_eq (k : string) (d : odict) :
  od_get k (od_remove k d) = None.
Proof.
  induction d as [|[k0 v0] d IH]; simpl.
  - reflexivity.
  - destruct (String.eqb k k0) eqn:E0; simpl.
    + exact IH.
    + rewrite E0. exact IH.
Qed.

Lemma od_keys_app (d1 d2 : odict) :
  od_keys (d1 ++ d2) = od_keys d1 ++ od_keys d2.
Proof. apply map_app. Qed.

Lemma existsb_eqb_In (k : string) (l : list string) :
  existsb (String.eqb k) l = true <-> In k l.
Proof.
  rewrite existsb_exists. split.
  - intros [x [Hin Hx]]. apply String.eqb_eq in Hx. subst. exact Hin.
  - intros Hin. exists k. split; [exact Hin | apply String.eqb_refl].
Qed.

Lemma existsb_eqb_not_In (k : string) (l : list string) :
  existsb (String.eqb k) l = false <-> ~ In k l.
Proof.
  rewrite <- existsb_eqb_In. destruct (existsb (String.eqb k) l).
  - split; [discriminate | intros H; exfalso; apply H; reflexivity].
  - split; [discriminate | reflexivity].
Qed.

(** The copying loop, started on [o], appends the selected fields when none
    of the keys is in [o] yet. *)
Lemma copy_keys_app (keys : list string) (data o : odict) :
  NoDup keys ->
  (forall k, In k keys -> ~ In k (od_keys o)) ->
  copy_keys keys data o = o ++ select_keys keys data.
Proof.
  revert o. induction keys as [|k keys IH]; simpl; intros o Hnd Hfresh.
  - symmetry. apply app_nil_r.
  - inversion Hnd as [|? ? Hk Hnd']; subst.
    destruct (od_get k data) as [v|] eqn:E.
    + rewrite IH.
      * rewrite od_set_fresh.
        -- rewrite <- app_assoc. reflexivity.
        -- apply existsb_eqb_not_In. apply Hfresh. left. reflexivity.
      * exact Hnd'.
      * intros k' Hin. rewrite od_set_fresh.
        -- rewrite od_keys_app, in_app_iff. simpl. intros [H|[H|[]]].
           ++ apply (Hfresh k'); [right; exact Hin | exact H].
           ++ subst k'. apply Hk. exact Hin.
        -- apply existsb_eqb_not_In. apply Hfresh. left. reflexivity.
    + apply IH; [exact Hnd'|]. intros k' Hin. apply Hfresh. right. exact Hin.
Qed.

Lemma copy_keys_select (keys : list string) (data : odict) :
  NoDup keys ->
  copy_keys keys data [] = select_keys keys data.
Proof.
  intros Hnd. rewrite copy_keys_app; [reflexivity | exact Hnd |].
  intros k _ [].
Qed.

Lemma maskclnrp_keys_NoDup : NoDup maskclnrp_keys.
Proof.
  unfold maskclnrp_keys.
  repeat (constructor; [simpl; intuition discriminate|]). constructor.
Qed.

Lemma od_wf_NoDup (d : odict) : od_wf d = true <-> NoDup (od_keys d).
Proof.
  induction d as [|[k v] d IH]; simpl.
  - split; [constructor | reflexivity].
  - rewrite andb_true_iff, negb_true_iff, existsb_eqb_not_In, IH.
    split.
    + intros [H1 H2]. constructor; assumption.
    + intros H. inversion H; subst. split; assumption.
Qed.

Lemma od_wf_get_In (d : odict) (k : string) (v : value) :
  od_wf d = true -> In (k, v) d -> od_get k d = Some v.
Proof.
  induction d as [|[k0 v0] d IH]; simpl; intros Hwf Hin.
  - destruct Hin.
  - apply andb_true_iff in Hwf. destruct Hwf as [Hk Hwf].
    apply negb_true_iff in Hk.
    destruct Hin as [Heq|Hin].
    + inversion Heq; subst. rewrite String.eqb_refl. reflexivity.
    + destruct (String.eqb k k0) eqn:E.
      * apply String.eqb_eq in E. subst k0.
        apply existsb_eqb_not_In in Hk. exfalso. apply Hk.
        unfold od_keys. apply in_map_iff. exists (k, v). split; [reflexivity | exact Hin].
      * apply IH; assumption.
Qed.

(** [OrderedDict(pairs)] keeps a list of pairs with distinct names as it
    is. *)
Lemma fold_od_set_app (pairs acc : odict) :
  NoDup (od_keys (acc ++ pairs)) ->
  fold_left (fun d kv => od_set (fst kv) (snd kv) d) pairs acc = acc ++ pairs.
Proof.
  revert acc. induction pairs as [|[k v] pairs IH]; simpl; intros acc Hnd.
  - symmetry. apply app_nil_r.
  - rewrite od_set_fresh.
    + rewrite IH.
      * rewrite <- app_assoc. reflexivity.
      * rewrite <- app_assoc. exact Hnd.
    + apply existsb_eqb_not_In. rewrite od_keys_app in Hnd. simpl in Hnd.
      apply NoDup_remove_2 in Hnd. intros Hin. apply Hnd.
      apply in_or_app. left. exact Hin.
Qed.

Lemma OrderedDict_wf (pairs : odict) :
  od_wf pairs = true -> OrderedDict pairs = pairs.
Proof.
  intros Hwf. unfold OrderedDict. rewrite fold_od_set_app; [reflexivity|].
  apply od_wf_NoDup. exact Hwf.
Qed.

(** ** The canonical message *)

Section Signing.

Context {platform : Platform}.

Lemma str_or_jsbool_spec (v : value) : str_or_jsbool v = spec_stringify v.
Proof. destruct v as [|[|]| | | |]; reflexivity. Qed.

Lemma without_None_id (payload : odict) :
  no_None payload = true -> without_None payload = payload.
Proof. apply forallb_filter_id. Qed.

Lemma without_None_app (p q : odict) :
  without_None (p ++ q) = without_None p ++ without_None q.
Proof. apply filter_app. Qed.

Lemma extend_cart_msg_dicts (items acc : list value) :
  forallb is_dict items = true ->
  extend_cart_msg acc items = Ok (acc ++ cart_item_values (VList items)).
Proof.
  revert acc. induction items as [|one items IH]; simpl; intros acc H.
  - rewrite app_nil_r. reflexivity.
  - apply andb_true_iff in H. destruct H as [H1 H2].
    destruct one; try discriminate. simpl.
    rewrite IH by exact H2. simpl. rewrite <- app_assoc. reflexivity.
Qed.

(** On a well-typed payload the builder does not fail. *)
Lemma mk_msg_for_sign_total (payload : odict) :
  cart_typed payload = true ->
  exists msg, mk_msg_for_sign payload = Ok msg.
Proof.
  unfold cart_typed, mk_msg_for_sign. intros H.
  destruct (od_get "cart" (without_None payload)) as [cart|]; simpl.
  - destruct (py_in cart EMPTY_VALUES) eqn:E; simpl.
    + eexists. reflexivity.
    + simpl in H. destruct cart; try discriminate. simpl in H. simpl.
      rewrite extend_cart_msg_dicts by exact H. simpl. eexists. reflexivity.
  - eexists. reflexivity.
Qed.

Lemma segments_plain (payload : odict) :
  (forall kv, In kv payload ->
     String.eqb (fst kv) "cart" && negb (py_in (snd kv) EMPTY_VALUES) = false) ->
  map str_or_jsbool (od_values payload) = map spec_segment payload.
Proof.
  intros H. unfold od_values. rewrite map_map. apply map_ext_in.
  intros kv Hin. unfold spec_segment. rewrite (H kv Hin).
  apply str_or_jsbool_spec.
Qed.

Lemma segments_no_cart (payload : odict) :
  existsb (String.eqb "cart") (od_keys payload) = false ->
  map str_or_jsbool (od_values payload) = map spec_segment payload.
Proof.
  intros H. apply segments_plain. intros kv Hin.
  apply andb_false_iff. left.
  destruct (String.eqb (fst kv) "cart") eqn:E; [|reflexivity].
  apply String.eqb_eq in E. apply existsb_eqb_not_In in H.
  exfalso. apply H. rewrite <- E. unfold od_keys. apply in_map. exact Hin.
Qed.

Lemma segments_cart_set (payload : odict) (cart : value) :
  od_wf payload = true ->
  od_get "cart" payload = Some cart ->
  py_in cart EMPTY_VALUES = false ->
  map str_or_jsbool
    (od_values
       (od_set "cart"
          (VStr (String.concat "|" (map str_or_jsbool (cart_item_values cart))))
          payload))
  = map spec_segment payload.
Proof.
  induction payload as [|[k x] payload IH]; simpl; intros Hwf Hget Hne.
  - discriminate.
  - apply andb_true_iff in Hwf. destruct Hwf as [Hk Hwf].
    apply negb_true_iff in Hk.
    destruct (String.eqb "cart" k) eqn:E.
    + inversion Hget; subst x. apply String.eqb_eq in E. subst k. simpl.
      unfold spec_segment at 1. simpl. rewrite Hne. simpl.
      f_equal.
      * f_equal. apply map_ext. apply str_or_jsbool_spec.
      * apply segments_no_cart. exact Hk.
    + simpl. unfold spec_segment at 1. simpl.
      rewrite String.eqb_sym, E. simpl. f_equal.
      * apply str_or_jsbool_spec.
      * apply IH; assumption.
Qed.

Lemma mk_msg_for_sign_spec (payload : odict) :
  od_wf payload = true ->
  no_None payload = true ->
  cart_typed payload = true ->
  mk_msg_for_sign payload = Ok (spec_canonical_message payload).
Proof.
  intros Hwf Hnn Hc. unfold cart_typed in Hc. unfold mk_msg_for_sign.
  rewrite without_None_id in * by exact Hnn.
  unfold spec_canonical_message.
  destruct (od_get "cart" payload) as [cart|] eqn:E; simpl.
  - destruct (py_in cart EMPTY_VALUES) eqn:Ee; simpl.
    + do 3 f_equal. apply segments_plain. intros [k v] Hin. simpl.
      destruct (String.eqb k "cart") eqn:Ek; [|reflexivity].
      apply String.eqb_eq in Ek. subst k.
      rewrite (od_wf_get_In _ _ _ Hwf Hin) in E. inversion E; subst v.
      rewrite Ee. reflexivity.
    + simpl in Hc. destruct cart as [| | | |l|]; try discriminate.
      simpl in Hc. simpl.
      rewrite extend_cart_msg_dicts by exact Hc. simpl.
      do 3 f_equal. exact (segments_cart_set payload (VList l) Hwf E Ee).
  - do 3 f_equal. apply segments_no_cart. apply od_get_none_keys. exact E.
Qed.

Lemma sign_ok (payload : odict) (priv : string) (msg : bytes)
    (sk : rsakey) (s : bytes) :
  mk_msg_for_sign payload = Ok msg ->
  RSA_importKey priv = Some sk ->
  PKCS1_v1_5_sign sk (SHA_new msg) = Some s ->
  sign payload priv = Ok (b64encode s).
Proof.
  intros Hm Hk Hs. unfold sign, importKey. rewrite Hm. simpl.
  rewrite Hk. simpl. rewrite Hs. reflexivity.
Qed.

Lemma verify_ok (payload : odict) (pub : string) (msg : bytes)
    (pk : rsakey) (text : string) (s : bytes) :
  mk_msg_for_sign payload = Ok msg ->
  RSA_importKey pub = Some pk ->
  b64decode text = Some s ->
  verify payload (VStr text) pub = Ok (PKCS1_v1_5_verify pk (SHA_new msg) s).
Proof.
  intros Hm Hk Hd. unfold verify, importKey, py_b64decode. rewrite Hm. simpl.
  rewrite Hk. simpl. rewrite Hd. reflexivity.
Qed.

(** C1: for every payload of the data model and every valid RSA key pair,
    [sign] returns a signature and [verify] of the same payload with that
    signature and the public key returns true. *)
Theorem sign_then_verify (payload : odict) (priv pub : string) :
  base64_round_trip ->
  valid_key_pair priv pub ->
  cart_typed payload = true ->
  exists signature,
    sign payload priv = Ok signature /\
    verify payload (VStr signature) pub = Ok true.
Proof.
  intros Hb64 (sk & pk & Hsk & Hpk & Hpair) Hc.
  destruct (mk_msg_for_sign_total payload Hc) as [msg Hm].
  destruct (Hpair (SHA_new msg)) as (s & Hs & Hv).
  exists (b64encode s). split.
  - exact (sign_ok payload priv msg sk s Hm Hsk Hs).
  - rewrite (verify_ok payload pub msg pk (b64encode s) s Hm Hpk (Hb64 s)).
    rewrite Hv. reflexivity.
Qed.

(** C3, as amended: a signature valid for a payload is rejected for every
    payload whose canonical message has another digest, a signature binding
    one digest at most; it is accepted for every payload with the same
    canonical message, whatever else distinguishes the two payloads. *)
Theorem verify_other_payload (p p' : odict) (signature : value) (pub : string)
    (msg msg' : bytes) :
  signature_binds_digest ->
  mk_msg_for_sign p = Ok msg ->
  mk_msg_for_sign p' = Ok msg' ->
  verify p signature pub = Ok true ->
  (SHA_new msg <> SHA_new msg' -> verify p' signature pub = Ok false) /\
  (msg = msg' -> verify p' signature pub = Ok true).
Proof.
  intros Hbind Hm Hm'. unfold verify. rewrite Hm, Hm'. simpl.
  destruct (importKey pub) as [pk|e]; simpl; [|discriminate].
  destruct (py_b64decode signature) as [s|e]; simpl; [|discriminate].
  intros Hv. inversion Hv as [Hv']. split.
  - intros Hne.
    destruct (PKCS1_v1_5_verify pk (SHA_new msg') s) eqn:E; [|reflexivity].
    exfalso. apply Hne. exact (Hbind pk _ _ s Hv' E).
  - intros <-. rewrite Hv'. reflexivity.
Qed.

(** C4: for every payload of the data model the canonical message is the
    UTF-8 encoding of the [|]-join of the stringified top-level values in
    field order, booleans as lowercase true and false, a non-empty cart
    replaced by the [|]-join of its items' values; a cart of two items of
    three fields gives one segment, the join of the six values. *)
Theorem canonical_message (payload : odict) :
  od_wf payload = true ->
  no_None payload = true ->
  cart_typed payload = true ->
  mk_msg_for_sign payload = Ok (spec_canonical_message payload) /\
  forall pre post n1 q1 a1 n2 q2 a2,
    payload =
      pre ++
      ("cart",
       VList [VDict [("name", n1); ("quantity", q1); ("amount", a1)];
              VDict [("name", n2); ("quantity", q2); ("amount", a2)]])
      :: post ->
    mk_msg_for_sign payload =
      Ok (encode_utf8
            (String.concat "|"
               (map spec_stringify (od_values pre)
                ++ String.concat "|"
                     (map spec_stringify [n1; q1; a1; n2; q2; a2])
                   :: map spec_stringify (od_values post)))).
Proof.
  intros Hwf Hnn Hc. split.
  - apply mk_msg_for_sign_spec; assumption.
  - intros pre post n1 q1 a1 n2 q2 a2 Hp.
    rewrite (mk_msg_for_sign_spec payload Hwf Hnn Hc).
    unfold spec_canonical_message. do 3 f_equal.
    apply od_wf_NoDup in Hwf. subst payload.
    rewrite od_keys_app in Hwf. simpl in Hwf.
    pose proof (NoDup_remove_2 _ _ _ Hwf) as Hnot.
    rewrite map_app. simpl. f_equal; [|f_equal].
    + rewrite <- segments_no_cart.
      * unfold od_values. rewrite !map_map. apply map_ext.
        intros kv. apply str_or_jsbool_spec.
      * apply existsb_eqb_not_In. intros Hin. apply Hnot.
        apply in_or_app. left. exact Hin.
    + rewrite <- segments_no_cart.
      * unfold od_values. rewrite !map_map. apply map_ext.
        intros kv. apply str_or_jsbool_spec.
      * apply existsb_eqb_not_In. intros Hin. apply Hnot.
        apply in_or_app. right. exact Hin.
Qed.

(** C5, as amended: when the pairs whose value is not an empty value have
    distinct names, none of them ['signature'], the signed payload holds
    exactly those pairs, in their order, followed by the signature field
    appended last; the signature is [sign] of exactly those fields in that
    order. *)
Theorem mk_payload_signed (key : string) (pairs : list (string * value)) :
  let fields := filter (fun kv => negb (py_in (snd kv) EMPTY_VALUES)) pairs in
  od_wf fields = true ->
  existsb (String.eqb "signature") (od_keys fields) = false ->
  mk_payload key pairs =
    (signature <- sign fields key ;;
     Ok (fields ++ [("signature", VStr signature)])).
Proof.
  intros fields Hwf Hsig. unfold mk_payload. fold fields.
  rewrite (OrderedDict_wf fields Hwf).
  destruct (sign fields key) as [s|e]; simpl; [|reflexivity].
  rewrite (od_set_fresh _ _ _ Hsig). reflexivity.
Qed.

(** C8, as amended: the builder filters out the fields whose value is None,
    and such a field contributes nothing to the canonical message. *)
Theorem mk_msg_for_sign_drops_None (pre post : odict) (k : string) :
  mk_msg_for_sign (pre ++ (k, VNone) :: post) = mk_msg_for_sign (pre ++ post).
Proof.
  unfold mk_msg_for_sign. rewrite !without_None_app. reflexivity.
Qed.

End Signing.

(** ** The small platform *)

Lemma hex_round_trip (b : bytes) : hex_decode (hex_encode b) = Some b.
Proof.
  induction b as [|x b IH]; [reflexivity|].
  cbn [hex_encode hex_decode]. rewrite IH.
  destruct x; reflexivity.
Qed.

Lemma Z_of_byte_inj (a b : byte) : Z_of_byte a = Z_of_byte b -> a = b.
Proof.
  unfold Z_of_byte. intros H. apply N2Z.inj in H.
  pose proof (Byte.of_to_N a) as Ha. rewrite H, Byte.of_to_N in Ha.
  inversion Ha. reflexivity.
Qed.

Lemma toy_key_pair :
  @valid_key_pair toy_platform "TOY PRIVATE KEY" "TOY PUBLIC KEY".
Proof.
  exists (mkToyKey 3233 17 (Some 2753%positive)), (mkToyKey 3233 17 None).
  split; [reflexivity|]. split; [reflexivity|].
  intros h. eexists. split; [reflexivity|].
  destruct h; vm_compute; reflexivity.
Qed.

Lemma toy_base64 : @base64_round_trip toy_platform.
Proof. exact hex_round_trip. Qed.

Lemma toy_binds_digest : @signature_binds_digest toy_platform.
Proof.
  intros k h h' s H H'. simpl in *. unfold toy_verify in *.
  destruct s as [|hi [|lo [|? ?]]]; try discriminate.
  apply andb_true_iff in H, H'. destruct H as [_ H]. destruct H' as [_ H'].
  apply Z.eqb_eq in H, H'. apply Z_of_byte_inj. congruence.
Qed.

(** ** Response validation *)

Lemma select_keys_keys (keys : list string) (data : odict) :
  od_keys (select_keys keys data) = filter (fun k => od_mem k data) keys.
Proof.
  induction keys as [|k keys IH]; simpl; [reflexivity|].
  unfold od_keys in *. rewrite map_app, IH. unfold od_mem.
  destruct (od_get k data); reflexivity.
Qed.

Lemma od_get_app (k : string) (d1 d2 : odict) :
  od_get k (d1 ++ d2) =
  match od_get k d1 with
  | Some v => Some v
  | None => od_get k d2
  end.
Proof.
  induction d1 as [|[k' v'] d1 IH]; simpl; [reflexivity|].
  destruct (String.eqb k k'); [reflexivity | exact IH].
Qed.

Lemma od_get_select_keys_if (keys : list string) (data : odict) (k : string) :
  od_get k (select_keys keys data) =
    if existsb (String.eqb k) keys then od_get k data else None.
Proof.
  induction keys as [|k0 keys IH]; simpl; [reflexivity|].
  rewrite od_get_app, IH.
  destruct (String.eqb k k0) eqn:E; simpl.
  - apply String.eqb_eq in E. subst k0.
    destruct (od_get k data) as [v|] eqn:Ev; simpl.
    + rewrite String.eqb_refl. reflexivity.
    + destruct (existsb (String.eqb k) keys); reflexivity.
  - destruct (od_get k0 data) as [v|]; simpl; [rewrite E|]; reflexivity.
Qed.

Lemma od_get_select_keys (keys : list string) (data : odict) (k : string) :
  In k keys -> od_get k (select_keys keys data) = od_get k data.
Proof.
  intros Hin. rewrite od_get_select_keys_if.
  apply existsb_eqb_In in Hin. rewrite Hin. reflexivity.
Qed.

Lemma od_get_select_keys_Some (keys : list string) (data : odict)
    (k : string) (v : value) :
  od_get k (select_keys keys data) = Some v -> od_get k data = Some v.
Proof.
  rewrite od_get_select_keys_if.
  destruct (existsb (String.eqb k) keys); [trivial | discriminate].
Qed.

Lemma with_extensions_same (r : Response) (exts : list odict) :
  resp_extensions r = Some exts -> with_extensions r exts = r.
Proof. destruct r; simpl; intros H; subst; reflexivity. Qed.

Section Validating.

Context {platform : Platform} {conf : Conf}.

Ltac unfold_M :=
  unfold bindM, lift, ret, raise, get_response, set_extensions, set_payload,
    append_extension.

Lemma decode_response_status (response : Response) :
  http_ok response = false ->
  decode_response response =
    Raise (CsobBaseException (HTTPError (status_code response))).
Proof.
  unfold http_ok, decode_response, raise_for_status. intros H.
  apply negb_false_iff in H. rewrite H. reflexivity.
Qed.

Lemma decode_response_not_json (response : Response) :
  http_ok response = true ->
  json_body response = None ->
  decode_response response =
    Raise (CsobJSONDecodeError "Cannot decode JSON in response").
Proof.
  unfold http_ok, decode_response, raise_for_status, response_json.
  intros H Hj. apply negb_true_iff in H. rewrite H, Hj. reflexivity.
Qed.

Lemma decode_response_json (response : Response) (data : value) :
  http_ok response = true ->
  json_body response = Some data ->
  decode_response response = Ok data.
Proof.
  unfold http_ok, decode_response, raise_for_status, response_json.
  intros H Hj. apply negb_true_iff in H. rewrite H, Hj. reflexivity.
Qed.

(** [validate_response], phase by phase. *)
Lemma validate_response_unfold (response : Response) (key : string) :
  validate_response response key =
    match decode_response response with
    | Raise e => (response, Raise e)
    | Ok data =>
        match py_pop data "signature" with
        | Raise e => (response, Raise e)
        | Ok (signature, data') =>
            let payload := copy_keys RESPONSE_KEYS data' [] in
            match verify payload signature key with
            | Raise e => (response, Raise e)
            | Ok false => (response, Raise (CsobVerifyError "Cannot verify response"))
            | Ok true =>
                match validate_extensions key data'
                        (with_payload (with_extensions response []) payload) with
                | (r, Ok _) => (r, Ok r)
                | (r, Raise e) => (r, Raise e)
                end
            end
        end
    end.
Proof.
  unfold validate_response. unfold_M.
  destruct (decode_response response) as [data|e]; [|reflexivity].
  destruct (py_pop data "signature") as [[signature data']|e]; [|reflexivity].
  cbn [fst snd].
  destruct (verify (copy_keys RESPONSE_KEYS data' []) signature key) as [[|]|e];
    [|reflexivity|reflexivity].
  cbn [negb].
  destruct (validate_extensions key data' _) as [r [u|e]]; reflexivity.
Qed.

Lemma validate_response_verified (response : Response) (key : string)
    (body : odict) :
  NoDup RESPONSE_KEYS ->
  primary_verified response key body ->
  validate_response response key =
    match validate_extensions key (od_remove "signature" body)
            (with_payload (with_extensions response []) (recognized_fields body)) with
    | (r, Ok _) => (r, Ok r)
    | (r, Raise e) => (r, Raise e)
    end.
Proof.
  intros Hnd (Hok & Hjson & signature & Hsig & Hver).
  rewrite validate_response_unfold.
  rewrite (decode_response_json response _ Hok Hjson).
  cbn [py_pop]. rewrite Hsig. cbv zeta.
  rewrite (copy_keys_select _ _ Hnd). fold (recognized_fields body).
  rewrite Hver. reflexivity.
Qed.

(** *** One extension entry *)

Lemma verify_extension_unrecognized (key : string) (entry : odict)
    (r : Response) :
  od_mem "extension" entry = true ->
  recognized entry = false ->
  verify_extension key (VDict entry) r = (r, Ok tt).
Proof.
  unfold od_mem, recognized, verify_extension. unfold_M. cbn [py_getitem].
  destruct (od_get "extension" entry) as [kind|]; [|discriminate].
  intros _ H. rewrite H. reflexivity.
Qed.

Lemma verify_extension_accepted (key : string) (entry : odict)
    (r : Response) (exts : list odict) :
  recognized entry = true ->
  ext_verifies key entry ->
  resp_extensions r = Some exts ->
  verify_extension key (VDict entry) r =
    (with_extensions r (exts ++ [sub_object entry]), Ok tt).
Proof.
  unfold recognized, verify_extension. unfold_M. cbn [py_getitem].
  intros Hrec (signature & Hsig & Hver) Hexts.
  destruct (od_get "extension" entry) as [kind|]; [|discriminate].
  rewrite Hrec, Hsig.
  rewrite (copy_keys_select _ _ maskclnrp_keys_NoDup).
  fold (sub_object entry). rewrite Hver, Hexts. reflexivity.
Qed.

Lemma verify_extension_rejected (key : string) (entry : odict) (r : Response) :
  recognized entry = true ->
  ext_rejected key entry ->
  verify_extension key (VDict entry) r =
    (r, Raise (CsobVerifyError "Cannot verify masked card extension response")).
Proof.
  unfold recognized, verify_extension. unfold_M. cbn [py_getitem].
  intros Hrec (signature & Hsig & Hver).
  destruct (od_get "extension" entry) as [kind|]; [|discriminate].
  rewrite Hrec, Hsig.
  rewrite (copy_keys_select _ _ maskclnrp_keys_NoDup).
  fold (sub_object entry). rewrite Hver. reflexivity.
Qed.

Lemma verify_extension_unsigned (key : string) (entry : odict) (r : Response) :
  recognized entry = true ->
  od_get "signature" entry = None ->
  verify_extension key (VDict entry) r = (r, Raise (KeyError "signature")).
Proof.
  unfold recognized, verify_extension. unfold_M. cbn [py_getitem].
  intros Hrec Hsig.
  destruct (od_get "extension" entry) as [kind|]; [|discriminate].
  rewrite Hrec, Hsig. reflexivity.
Qed.

(** *** The loop over the entries *)

Lemma verify_extensions_app (key : string) (l1 l2 : list value) (r : Response) :
  verify_extensions key (l1 ++ l2) r =
    match verify_extensions key l1 r with
    | (r', Ok _) => verify_extensions key l2 r'
    | (r', Raise e) => (r', Raise e)
    end.
Proof.
  revert r. induction l1 as [|one l1 IH]; intros r; cbn [verify_extensions app].
  - reflexivity.
  - unfold bindM at 1 2.
    destruct (verify_extension key one r) as [r' [u|e]]; [apply IH | reflexivity].
Qed.

Lemma verify_extensions_pass (key : string) (entries : list odict)
    (r : Response) (exts : list odict) :
  Forall (ext_passes key) entries ->
  resp_extensions r = Some exts ->
  verify_extensions key (map VDict entries) r =
    (with_extensions r (exts ++ map sub_object (filter recognized entries)),
     Ok tt).
Proof.
  intros Hall. revert r exts.
  induction Hall as [|entry entries [Hmem Hver] _ IH]; intros r exts Hexts.
  - cbn. rewrite app_nil_r, (with_extensions_same r exts Hexts). reflexivity.
  - cbn [map verify_extensions filter]. unfold bindM.
    destruct (recognized entry) eqn:Hrec.
    + rewrite (verify_extension_accepted key entry r exts Hrec (Hver eq_refl) Hexts).
      rewrite (IH (with_extensions r (exts ++ [sub_object entry]))
                 (exts ++ [sub_object entry]) eq_refl).
      cbn [map]. rewrite <- app_assoc. reflexivity.
    + rewrite (verify_extension_unrecognized key entry r Hmem Hrec).
      apply IH. exact Hexts.
Qed.

Lemma validate_extensions_list (key : string) (data : odict)
    (items : list value) (r : Response) :
  od_get "extensions" data = Some (VList items) ->
  validate_extensions key data r = verify_extensions key items r.
Proof.
  intros H. unfold validate_extensions, od_mem. unfold_M. cbn [py_getitem].
  rewrite H. reflexivity.
Qed.

Lemma verify_extensions_stops (key : string) (pre post : list odict)
    (entry : odict) (r : Response) (exts : list odict) (e : exn) :
  Forall (ext_passes key) pre ->
  resp_extensions r = Some exts ->
  (forall r', verify_extension key (VDict entry) r' = (r', Raise e)) ->
  snd (verify_extensions key (map VDict (pre ++ entry :: post)) r) = Raise e.
Proof.
  intros Hpre Hexts Hstop.
  rewrite map_app, verify_extensions_app.
  rewrite (verify_extensions_pass key pre r exts Hpre Hexts).
  cbn [map verify_extensions]. unfold bindM. rewrite Hstop. reflexivity.
Qed.

Lemma validate_response_stops (response : Response) (key : string)
    (body : odict) (pre post : list odict) (entry : odict) (e : exn) :
  NoDup RESPONSE_KEYS ->
  primary_verified response key body ->
  od_get "extensions" body = Some (VList (map VDict (pre ++ entry :: post))) ->
  Forall (ext_passes key) pre ->
  (forall r', verify_extension key (VDict entry) r' = (r', Raise e)) ->
  snd (validate_response response key) = Raise e.
Proof.
  intros Hnd Hprim Hext Hpre Hstop.
  rewrite (validate_response_verified response key body Hnd Hprim).
  rewrite (validate_extensions_list key _ (map VDict (pre ++ entry :: post))).
  - pose proof (verify_extensions_stops key pre post entry
                  (with_payload (with_extensions response []) (recognized_fields body))
                  [] e Hpre eq_refl Hstop) as H.
    destruct (verify_extensions key _ _) as [r' [u|e']]; simpl in *.
    + discriminate.
    + injection H as ->. reflexivity.
  - rewrite od_get_remove_neq; [exact Hext | reflexivity].
Qed.

(** The extension block leaves [response.payload] alone. *)
Lemma verify_extension_payload (key : string) (one : value) (r : Response) :
  resp_payload (fst (verify_extension key one r)) = resp_payload r.
Proof.
  unfold verify_extension. unfold_M.
  destruct (py_getitem one "extension") as [kind|e]; [|reflexivity].
  destruct (py_in kind _); [|reflexivity].
  destruct one; try reflexivity.
  destruct (py_getitem _ "signature") as [signature|e]; [|reflexivity].
  destruct (verify _ signature key) as [[|]|e]; try reflexivity.
  destruct (resp_extensions r); reflexivity.
Qed.

Lemma verify_extensions_payload (key : string) (items : list value)
    (r : Response) :
  resp_payload (fst (verify_extensions key items r)) = resp_payload r.
Proof.
  revert r. induction items as [|one items IH]; intros r; [reflexivity|].
  cbn [verify_extensions]. unfold bindM.
  pose proof (verify_extension_payload key one r) as H.
  destruct (verify_extension key one r) as [r' [u|e]]; simpl in H.
  - rewrite IH. exact H.
  - exact H.
Qed.

Lemma validate_extensions_payload (key : string) (data : odict) (r : Response) :
  resp_payload (fst (validate_extensions key data r)) = resp_payload r.
Proof.
  unfold validate_extensions. unfold_M.
  destruct (od_mem "extensions" data); [|reflexivity].
  destruct (py_getitem (VDict data) "extensions") as [exts|e]; [|reflexivity].
  destruct (py_iter exts) as [items|e]; [|reflexivity].
  apply verify_extensions_payload.
Qed.

Lemma od_get_remove_Some (k k' : string) (d : odict) (v : value) :
  od_get k (od_remove k' d) = Some v -> od_get k d = Some v.
Proof.
  destruct (String.eqb k' k) eqn:E.
  - apply String.eqb_eq in E. subst k'. rewrite od_get_remove_eq. discriminate.
  - rewrite (od_get_remove_neq k k' d E). trivial.
Qed.

(** C7: failures before any signature work.  A connection-level failure
    of the transport and an HTTP error status raise [CsobBaseException]
    (the spec's GatewayTransportError) around the underlying exception or
    status; a body that is not JSON raises [CsobJSONDecodeError] (the spec's
    ResponseDecodeError) with the message of the code, 'Cannot decode JSON
    in response'.  The response object is left as it was, and nothing
    depends on the key or on the cryptographic platform. *)
Theorem transport_and_decode_errors (self : CsobClient) (response : Response)
    (key : string) :
  (forall what,
     request_and_validate self (Raise (RequestException what)) =
       Raise (CsobBaseException (RequestException what))) /\
  (http_ok response = false ->
   validate_response response key =
     (response, Raise (CsobBaseException (HTTPError (status_code response)))) /\
   request_and_validate self (Ok response) =
     Raise (CsobBaseException (HTTPError (status_code response)))) /\
  (http_ok response = true ->
   json_body response = None ->
   validate_response response key =
     (response, Raise (CsobJSONDecodeError "Cannot decode JSON in response")) /\
   request_and_validate self (Ok response) =
     Raise (CsobJSONDecodeError "Cannot decode JSON in response")).
Proof.
  split; [|split].
  - intros what. reflexivity.
  - intros H. unfold request_and_validate. cbn [HTTPAdapter_send try_except bind].
    rewrite !validate_response_unfold, (decode_response_status response H).
    split; reflexivity.
  - intros H Hj. unfold request_and_validate.
    cbn [HTTPAdapter_send try_except bind].
    rewrite !validate_response_unfold, (decode_response_not_json response H Hj).
    split; reflexivity.
Qed.

(** C6: response validation takes the signature out of the decoded body,
    builds the payload from the recognized keys present, in the recognized
    order, unrecognized keys dropped, and verifies the signature over that
    payload with the stored public key.  When the verification fails it
    raises [CsobVerifyError] (the spec's SignatureVerificationError) with
    the message of the code, 'Cannot verify response', and attaches no
    payload; when it succeeds that payload is the one attached. *)
Theorem primary_verification (response : Response) (key : string)
    (body : odict) (signature : value) :
  NoDup RESPONSE_KEYS ->
  http_ok response = true ->
  json_body response = Some (VDict body) ->
  od_get "signature" body = Some signature ->
  let payload := recognized_fields body in
  od_keys payload =
    filter (fun k => od_mem k (od_remove "signature" body)) RESPONSE_KEYS /\
  (forall k v, od_get k payload = Some v -> od_get k body = Some v) /\
  (verify payload signature key = Ok false ->
   validate_response response key =
     (response, Raise (CsobVerifyError "Cannot verify response"))) /\
  (verify payload signature key = Ok true ->
   resp_payload (fst (validate_response response key)) = Some payload) /\
  (forall e, verify payload signature key = Raise e ->
   validate_response response key = (response, Raise e)).
Proof.
  intros Hnd Hok Hjson Hsig payload.
  assert (Hunf : validate_response response key =
            match verify payload signature key with
            | Raise e => (response, Raise e)
            | Ok false => (response, Raise (CsobVerifyError "Cannot verify response"))
            | Ok true =>
                match validate_extensions key (od_remove "signature" body)
                        (with_payload (with_extensions response []) payload) with
                | (r, Ok _) => (r, Ok r)
                | (r, Raise e) => (r, Raise e)
                end
            end).
  { rewrite validate_response_unfold.
    rewrite (decode_response_json response _ Hok Hjson).
    cbn [py_pop]. rewrite Hsig. cbv zeta.
    rewrite (copy_keys_select _ _ Hnd). reflexivity. }
  split; [|split; [|split; [|split]]].
  - apply select_keys_keys.
  - intros k v H. apply od_get_select_keys_Some in H.
    exact (od_get_remove_Some _ _ _ _ H).
  - intros H. rewrite Hunf, H. reflexivity.
  - intros H. rewrite Hunf, H.
    pose proof (validate_extensions_payload key (od_remove "signature" body)
                  (with_payload (with_extensions response []) payload)) as Hp.
    destruct (validate_extensions key _ _) as [r [u|e]]; exact Hp.
  - intros e H. rewrite Hunf, H. reflexivity.
Qed.

(** C2: once the response itself has verified and the body carries a list
    under 'extensions', every entry of a recognized kind has its five-field
    sub-object built and its own signature verified.  When all of them
    verify, the verified sub-objects are attached in the order of the input
    list, entries of another kind ignored.  The first entry whose signature
    does not verify ends the validation with [CsobVerifyError] (the spec's
    SignatureVerificationError; the message of the code is 'Cannot verify
    masked card extension response'), whatever follows it, and nothing is
    returned. *)
Theorem extension_verification (response : Response) (key : string)
    (body : odict) (entries : list odict) :
  NoDup RESPONSE_KEYS ->
  primary_verified response key body ->
  od_get "extensions" body = Some (VList (map VDict entries)) ->
  (Forall (ext_passes key) entries ->
   exists r,
     validate_response response key = (r, Ok r) /\
     resp_extensions r = Some (map sub_object (filter recognized entries))) /\
  (forall pre bad post,
     entries = pre ++ bad :: post ->
     Forall (ext_passes key) pre ->
     recognized bad = true ->
     ext_rejected key bad ->
     snd (validate_response response key) =
       Raise (CsobVerifyError "Cannot verify masked card extension response")).
Proof.
  intros Hnd Hprim Hext. split.
  - intros Hall.
    rewrite (validate_response_verified response key body Hnd Hprim).
    rewrite (validate_extensions_list key _ (map VDict entries)).
    + rewrite (verify_extensions_pass key entries
                 (with_payload (with_extensions response []) (recognized_fields body))
                 [] Hall eq_refl).
      eexists. split; reflexivity.
    + rewrite od_get_remove_neq; [exact Hext | reflexivity].
  - intros pre bad post Heq Hpre Hrec Hbad. subst entries.
    apply (validate_response_stops response key body pre post bad); try assumption.
    intros r'. apply verify_extension_rejected; assumption.
Qed.

(** C10: a decoded body without a top-level 'signature' key makes response
    validation raise a plain [KeyError], none of the errors of the package;
    so does an extension entry of a recognized kind without its 'signature'
    key, once the validation has come to it. *)
Theorem missing_signature (response : Response) (key : string) (body : odict) :
  (http_ok response = true ->
   json_body response = Some (VDict body) ->
   od_get "signature" body = None ->
   validate_response response key = (response, Raise (KeyError "signature"))) /\
  (forall pre entry post,
     NoDup RESPONSE_KEYS ->
     primary_verified response key body ->
     od_get "extensions" body = Some (VList (map VDict (pre ++ entry :: post))) ->
     Forall (ext_passes key) pre ->
     recognized entry = true ->
     od_get "signature" entry = None ->
     snd (validate_response response key) = Raise (KeyError "signature")).
Proof.
  split.
  - intros Hok Hjson Hsig. rewrite validate_response_unfold.
    rewrite (decode_response_json response _ Hok Hjson).
    cbn [py_pop]. rewrite Hsig. reflexivity.
  - intros pre entry post Hnd Hprim Hext Hpre Hrec Hsig.
    apply (validate_response_stops response key body pre post entry); try assumption.
    intros r'. apply verify_extension_unsigned; assumption.
Qed.

Lemma select_keys_cons (k : string) (keys : list string) (data : odict) :
  select_keys (k :: keys) data =
    match od_get k data with
    | Some v => [(k, v)]
    | None => []
    end ++ select_keys keys data.
Proof. reflexivity. Qed.

Lemma od_get_map_retype (k : string) (fields : odict) :
  od_get k (map retype fields) =
    option_map (fun v => snd (retype (k, v))) (od_get k fields).
Proof.
  induction fields as [|[k' v'] fields IH]; simpl; [reflexivity|].
  destruct (String.eqb k k') eqn:E; [|exact IH].
  apply String.eqb_eq in E. subst k'. reflexivity.
Qed.

Lemma od_keys_map_retype (fields : odict) :
  od_keys (map retype fields) = od_keys fields.
Proof.
  unfold od_keys. rewrite map_map. apply map_ext. intros [k v]. reflexivity.
Qed.

(** The loop of [gateway_return], started on [o], appends the selected
    fields retyped. *)
Lemma gateway_return_fields_app (keys : list string) (datadict o : odict) :
  NoDup keys ->
  (forall k, In k keys -> ~ In k (od_keys o)) ->
  ints_convert (select_keys keys datadict) ->
  gateway_return_fields keys datadict o =
    Ok (o ++ map retype (select_keys keys datadict)).
Proof.
  revert o. induction keys as [|k keys IH]; intros o Hnd Hfresh Hint.
  - simpl. rewrite app_nil_r. reflexivity.
  - inversion Hnd as [|? ? Hk Hnd']; subst.
    rewrite select_keys_cons in *. cbn [gateway_return_fields].
    destruct (od_get k datadict) as [v|] eqn:E.
    + unfold ints_convert in Hint. cbn [app] in Hint.
      inversion Hint as [|? ? Hv Hrest]; subst. cbn [fst snd] in Hv.
      fold (int_typed k).
      assert (Hstep : (if int_typed k then py_int v else Ok v) =
                      Ok (snd (retype (k, v)))).
      { unfold retype. cbn [fst snd]. destruct (int_typed k); [|reflexivity].
        destruct (Hv eq_refl) as [z Hz]. unfold int_value. rewrite Hz.
        reflexivity. }
      rewrite Hstep. cbn [bind].
      assert (Hset : od_set k (snd (retype (k, v))) o = o ++ [retype (k, v)]).
      { apply od_set_fresh. apply existsb_eqb_not_In. apply Hfresh.
        left. reflexivity. }
      rewrite Hset, IH.
      * rewrite <- app_assoc. reflexivity.
      * exact Hnd'.
      * intros k' Hin. rewrite od_keys_app, in_app_iff. simpl.
        intros [H|[H|[]]].
        -- apply (Hfresh k'); [right; exact Hin | exact H].
        -- subst k'. apply Hk. exact Hin.
      * exact Hrest.
    + cbn [app]. apply IH; [exact Hnd' | | exact Hint].
      intros k' Hin. apply Hfresh. right. exact Hin.
Qed.

(** C9, as amended: [gateway_return] recovers exactly the recognized
    fields present, in the recognized order, with 'resultCode' and
    'paymentStatus' converted by [int], so that a numeric string comes back
    as an integer; [validate_response] recovers exactly the recognized
    fields with the values of the decoded body as they are. *)
Theorem recovered_fields (self : CsobClient) (datadict : odict)
    (signature : value) (response : Response) (key : string) (body : odict) :
  NoDup RESPONSE_KEYS ->
  (od_get "signature" datadict = Some signature ->
   ints_convert (select_keys RESPONSE_KEYS datadict) ->
   let o := map retype (select_keys RESPONSE_KEYS datadict) in
   od_keys o = filter (fun k => od_mem k datadict) RESPONSE_KEYS /\
   (forall k s z,
      int_typed k = true ->
      In k RESPONSE_KEYS ->
      od_get k datadict = Some (VStr s) ->
      py_int_of_str s = Some z ->
      od_get k o = Some (VInt z)) /\
   (forall k v,
      int_typed k = false ->
      od_get k o = Some v ->
      od_get k datadict = Some v) /\
   (verify o signature (pubkey self) = Ok true ->
    gateway_return self datadict = Ok o)) /\
  (primary_verified response key body ->
   resp_payload (fst (validate_response response key)) =
     Some (recognized_fields body) /\
   forall k v,
     od_get k (recognized_fields body) = Some v -> od_get k body = Some v).
Proof.
  intros Hnd. split.
  - intros Hsig Hint o. split; [|split; [|split]].
    + unfold o. rewrite od_keys_map_retype. apply select_keys_keys.
    + intros k s z Hk Hin Hget Hz. unfold o.
      rewrite od_get_map_retype, (od_get_select_keys _ _ _ Hin), Hget.
      unfold retype, int_value. cbn [option_map fst snd py_int].
      rewrite Hk, Hz. reflexivity.
    + intros k v Hk Hget. unfold o in Hget.
      rewrite od_get_map_retype in Hget.
      destruct (od_get k (select_keys RESPONSE_KEYS datadict)) as [w|] eqn:E;
        [|discriminate].
      unfold retype in Hget. cbn [option_map fst snd] in Hget.
      rewrite Hk in Hget. rewrite <- Hget.
      exact (od_get_select_keys_Some _ _ _ _ E).
    + intros Hver. unfold gateway_return.
      rewrite (gateway_return_fields_app _ _ [] Hnd); [|intros k _ []|exact Hint].
      cbn [app bind py_getitem]. rewrite Hsig. cbn [bind]. fold o.
      rewrite Hver. reflexivity.
  - intros Hprim. split.
    + rewrite (validate_response_verified response key body Hnd Hprim).
      pose proof (validate_extensions_payload key (od_remove "signature" body)
                    (with_payload (with_extensions response [])
                       (recognized_fields body))) as Hp.
      destruct (validate_extensions key _ _) as [r [u|e]]; exact Hp.
    + intros k v H. apply od_get_select_keys_Some in H.
      exact (od_get_remove_Some _ _ _ _ H).
Qed.

End Validating.

(** ** Closed instances on the small platform *)

Lemma gateway_conf_NoDup : NoDup (@RESPONSE_KEYS gateway_conf).
Proof.
  simpl. repeat (constructor; [simpl; intuition discriminate|]). constructor.
Qed.

Lemma toy_status_verified (entries : list odict) :
  @primary_verified toy_platform gateway_conf
    (response_of (status_body entries)) toy_pub (status_body entries).
Proof.
  split; [reflexivity|]. split; [reflexivity|].
  exists (VStr (match @sign toy_platform status_fields toy_priv with
                | Ok s => s
                | Raise _ => ""
                end)).
  split; vm_compute; reflexivity.
Qed.

Ltac toy_signature entry :=
  exists (match od_get "signature" entry with
          | Some v => v
          | None => VNone
          end);
  split; vm_compute; reflexivity.

Lemma ext_maskClnRP_passes : @ext_passes toy_platform toy_pub ext_maskClnRP.
Proof. split; [reflexivity|]. intros _. toy_signature ext_maskClnRP. Qed.

Lemma ext_maskCln_passes : @ext_passes toy_platform toy_pub ext_maskCln.
Proof. split; [reflexivity|]. intros _. toy_signature ext_maskCln. Qed.

Lemma ext_other_passes : @ext_passes toy_platform toy_pub ext_other.
Proof. split; [reflexivity|]. intros H. discriminate H. Qed.

Lemma ext_forged_rejected : @ext_rejected toy_platform toy_pub ext_forged.
Proof. toy_signature ext_forged. Qed.

Lemma sign_then_verify_witness :
  @base64_round_trip toy_platform /\
  @valid_key_pair toy_platform toy_priv toy_pub /\
  cart_typed init_fields = true /\
  exists signature,
    @sign toy_platform init_fields toy_priv = Ok signature /\
    @verify toy_platform init_fields (VStr signature) toy_pub = Ok true.
Proof.
  split; [exact toy_base64|]. split; [exact toy_key_pair|].
  split; [reflexivity|].
  apply (@sign_then_verify toy_platform init_fields toy_priv toy_pub
           toy_base64 toy_key_pair).
  reflexivity.
Defined.

Lemma verify_other_payload_witness :
  @signature_binds_digest toy_platform /\
  @verify toy_platform flag_true (VStr "0b50") toy_pub = Ok true /\
  @verify toy_platform flag_false (VStr "0b50") toy_pub = Ok false /\
  @verify toy_platform flag_text (VStr "0b50") toy_pub = Ok true.
Proof.
  split; [exact toy_binds_digest|]. split; [reflexivity|]. split.
  - apply (proj1 (@verify_other_payload toy_platform flag_true flag_false
                    (VStr "0b50") toy_pub (encode_utf8 "true") (encode_utf8 "false")
                    toy_binds_digest eq_refl eq_refl eq_refl)).
    vm_compute. discriminate.
  - apply (proj2 (@verify_other_payload toy_platform flag_true flag_text
                    (VStr "0b50") toy_pub (encode_utf8 "true") (encode_utf8 "true")
                    toy_binds_digest eq_refl eq_refl eq_refl)).
    reflexivity.
Defined.

(** The claim C3 fails as it stands: two payloads that differ in a field
    value, a boolean against its text, have one canonical message, and the
    signature of the first verifies for the second. *)
Lemma verify_accepts_other_payload :
  flag_true <> flag_text /\
  @sign toy_platform flag_true toy_priv = Ok "0b50" /\
  @verify toy_platform flag_true (VStr "0b50") toy_pub = Ok true /\
  @verify toy_platform flag_text (VStr "0b50") toy_pub = Ok true /\
  @verify toy_platform flag_text (VStr "0b50") toy_pub <> Ok false.
Proof.
  split; [discriminate|]. split; [reflexivity|]. split; [reflexivity|].
  split; [reflexivity | discriminate].
Qed.

Lemma canonical_message_witness :
  od_wf init_fields = true /\
  no_None init_fields = true /\
  cart_typed init_fields = true /\
  @mk_msg_for_sign toy_platform init_fields =
    Ok (@spec_canonical_message toy_platform init_fields) /\
  @mk_msg_for_sign toy_platform init_fields =
    Ok (encode_utf8
          "MERCHANT|666|12345|true|Order in shop XYZ|5|12345|Postage|1|0|Order").
Proof.
  split; [reflexivity|]. split; [reflexivity|]. split; [reflexivity|].
  destruct (@canonical_message toy_platform init_fields eq_refl eq_refl eq_refl)
    as [Hspec Hcart].
  split; [exact Hspec|].
  exact (Hcart [("merchantId", VStr "MERCHANT"); ("orderNo", VStr "666");
                ("totalAmount", VInt 12345); ("closePayment", VBool true)]
               [("description", VStr "Order")]
               (VStr "Order in shop XYZ") (VInt 5) (VInt 12345)
               (VStr "Postage") (VInt 1) (VInt 0) eq_refl).
Defined.

Lemma mk_payload_signed_witness :
  let fields :=
    filter (fun kv => negb (py_in (snd kv) EMPTY_VALUES)) echo_pairs in
  od_wf fields = true /\
  existsb (String.eqb "signature") (od_keys fields) = false /\
  @mk_payload toy_platform toy_priv echo_pairs =
    (signature <- @sign toy_platform fields toy_priv ;;
     Ok (fields ++ [("signature", VStr signature)])) /\
  @mk_payload toy_platform toy_priv echo_pairs =
    Ok [("merchantId", VStr "MERCHANT"); ("dttm", VStr "20230101120000");
        ("signature", VStr "024f")].
Proof.
  split; [reflexivity|]. split; [reflexivity|]. split.
  - exact (@mk_payload_signed toy_platform toy_priv echo_pairs eq_refl eq_refl).
  - reflexivity.
Defined.

(** The claim C5 fails as it stands for pairs that bring a 'signature'
    name or a name twice: the given 'signature' pair is signed over and then
    overwritten in place, and of two pairs of one name only the later value
    is kept. *)
Lemma mk_payload_signs_signature_field :
  py_in (VStr "x") EMPTY_VALUES = false /\
  @mk_msg_for_sign toy_platform [("signature", VStr "x")] = Ok (encode_utf8 "x") /\
  @sign toy_platform [("signature", VStr "x")] toy_priv = Ok "0823" /\
  @mk_payload toy_platform toy_priv [("signature", VStr "x")]
    = Ok [("signature", VStr "0823")] /\
  @mk_payload toy_platform toy_priv [("orderNo", VStr "1"); ("orderNo", VStr "2")]
    = Ok [("orderNo", VStr "2"); ("signature", VStr "0324")].
Proof. repeat split; reflexivity. Qed.

(** The claim C8 fails as it stands: a field whose value is the empty
    string, a member of the empty-value set, is kept by the builder and
    contributes an empty segment with its separator. *)
Lemma mk_msg_for_sign_keeps_empty_string :
  py_in (VStr "") EMPTY_VALUES = true /\
  @mk_msg_for_sign toy_platform [("orderNo", VStr "666"); ("description", VStr "")]
    = Ok (encode_utf8 "666|") /\
  @mk_msg_for_sign toy_platform [("orderNo", VStr "666")]
    = Ok (encode_utf8 "666") /\
  @mk_msg_for_sign toy_platform [("orderNo", VStr "666"); ("description", VStr "")]
    <> @mk_msg_for_sign toy_platform [("orderNo", VStr "666")].
Proof.
  split; [reflexivity|]. split; [reflexivity|]. split; [reflexivity|].
  vm_compute. discriminate.
Qed.

Lemma transport_and_decode_errors_witness :
  @request_and_validate toy_platform gateway_conf toy_client
    (Raise (RequestException "Can't connect"))
    = Raise (CsobBaseException (RequestException "Can't connect")) /\
  @validate_response toy_platform gateway_conf
    (mkResponse 500 None None None) toy_pub
    = (mkResponse 500 None None None,
       Raise (CsobBaseException (HTTPError 500))) /\
  @validate_response toy_platform gateway_conf
    (mkResponse 200 None None None) toy_pub
    = (mkResponse 200 None None None,
       Raise (CsobJSONDecodeError "Cannot decode JSON in response")).
Proof.
  split; [|split].
  - exact (proj1 (@transport_and_decode_errors toy_platform gateway_conf
                    toy_client (mkResponse 500 None None None) toy_pub)
             "Can't connect").
  - exact (proj1 (proj1 (proj2 (@transport_and_decode_errors toy_platform
                    gateway_conf toy_client (mkResponse 500 None None None)
                    toy_pub)) eq_refl)).
  - exact (proj1 (proj2 (proj2 (@transport_and_decode_errors toy_platform
                    gateway_conf toy_client (mkResponse 200 None None None)
                    toy_pub)) eq_refl eq_refl)).
Defined.

Lemma primary_verification_witness :
  @validate_response toy_platform gateway_conf (response_of forged_body) toy_pub
    = (response_of forged_body, Raise (CsobVerifyError "Cannot verify response")) /\
  resp_payload
    (fst (@validate_response toy_platform gateway_conf
            (response_of (toy_signed status_fields)) toy_pub))
    = Some status_fields.
Proof.
  split.
  - pose proof (@primary_verification toy_platform gateway_conf
                  (response_of forged_body) toy_pub forged_body (VStr "0000")
                  gateway_conf_NoDup eq_refl eq_refl eq_refl) as H.
    cbv zeta in H. destruct H as (_ & _ & Hfail & _).
    apply Hfail. vm_compute. reflexivity.
  - pose proof (@primary_verification toy_platform gateway_conf
                  (response_of (toy_signed status_fields)) toy_pub
                  (toy_signed status_fields) (VStr "021e")
                  gateway_conf_NoDup eq_refl eq_refl eq_refl) as H.
    cbv zeta in H. destruct H as (_ & _ & _ & Hgood & _).
    rewrite Hgood; [reflexivity|]. vm_compute. reflexivity.
Defined.

Lemma extension_verification_witness :
  (exists r,
     @validate_response toy_platform gateway_conf
       (response_of (status_body [ext_maskClnRP; ext_other; ext_maskCln])) toy_pub
       = (r, Ok r) /\
     resp_extensions r =
       Some [ext_fields "maskClnRP"; ext_fields "maskCln"]) /\
  snd (@validate_response toy_platform gateway_conf
         (response_of (status_body [ext_maskClnRP; ext_forged; ext_maskCln])) toy_pub)
    = Raise (CsobVerifyError "Cannot verify masked card extension response").
Proof.
  split.
  - apply (proj1 (@extension_verification toy_platform gateway_conf _ toy_pub _
                    [ext_maskClnRP; ext_other; ext_maskCln]
                    gateway_conf_NoDup (toy_status_verified _) eq_refl)).
    apply Forall_cons; [exact ext_maskClnRP_passes|].
    apply Forall_cons; [exact ext_other_passes|].
    apply Forall_cons; [exact ext_maskCln_passes|].
    apply Forall_nil.
  - apply (proj2 (@extension_verification toy_platform gateway_conf _ toy_pub _
                    [ext_maskClnRP; ext_forged; ext_maskCln]
                    gateway_conf_NoDup (toy_status_verified _) eq_refl)
             [ext_maskClnRP] ext_forged [ext_maskCln] eq_refl).
    + apply Forall_cons; [exact ext_maskClnRP_passes | apply Forall_nil].
    + reflexivity.
    + exact ext_forged_rejected.
Defined.

Lemma missing_signature_witness :
  @validate_response toy_platform gateway_conf (response_of status_fields) toy_pub
    = (response_of status_fields, Raise (KeyError "signature")) /\
  snd (@validate_response toy_platform gateway_conf
         (response_of (status_body [ext_maskClnRP; ext_unsigned; ext_maskCln]))
         toy_pub)
    = Raise (KeyError "signature").
Proof.
  split.
  - exact (proj1 (@missing_signature toy_platform gateway_conf
                    (response_of status_fields) toy_pub status_fields)
             eq_refl eq_refl eq_refl).
  - apply (proj2 (@missing_signature toy_platform gateway_conf _ toy_pub _)
             [ext_maskClnRP] ext_unsigned [ext_maskCln]
             gateway_conf_NoDup (toy_status_verified _) eq_refl).
    + apply Forall_cons; [exact ext_maskClnRP_passes | apply Forall_nil].
    + reflexivity.
    + reflexivity.
Defined.

Lemma toy_ints_convert :
  @ints_convert toy_platform
    (select_keys (@RESPONSE_KEYS gateway_conf) (toy_signed stringly_fields)).
Proof.
  unfold ints_convert.
  replace (select_keys RESPONSE_KEYS (toy_signed stringly_fields))
    with stringly_fields by (vm_compute; reflexivity).
  repeat (apply Forall_cons;
          [intros H; vm_compute in H; try discriminate H; eexists; reflexivity|]).
  apply Forall_nil.
Qed.

Lemma toy_stringly_verified :
  @primary_verified toy_platform gateway_conf
    (response_of (toy_signed stringly_fields)) toy_pub
    (toy_signed stringly_fields).
Proof.
  split; [reflexivity|]. split; [reflexivity|].
  toy_signature (toy_signed stringly_fields).
Qed.

Lemma recovered_fields_witness :
  @gateway_return toy_platform gateway_conf toy_client (toy_signed stringly_fields)
    = Ok [("resultCode", VInt 0); ("paymentStatus", VInt 7);
          ("authCode", VStr "F7A23E")] /\
  resp_payload
    (fst (@validate_response toy_platform gateway_conf
            (response_of (toy_signed stringly_fields)) toy_pub))
    = Some stringly_fields.
Proof.
  pose proof (@recovered_fields toy_platform gateway_conf toy_client
                (toy_signed stringly_fields) (VStr "0827")
                (response_of (toy_signed stringly_fields)) toy_pub
                (toy_signed stringly_fields) gateway_conf_NoDup) as [Hret Hval].
  split.
  - specialize (Hret eq_refl toy_ints_convert). cbv zeta in Hret.
    destruct Hret as (_ & _ & _ & Hret).
    rewrite Hret; [reflexivity|]. vm_compute. reflexivity.
  - destruct (Hval toy_stringly_verified) as [Hp _]. rewrite Hp. reflexivity.
Defined.

(** The claim C9 fails as it stands for [validate_response]: a result
    code and a payment status that travel as numeric strings come back as
    strings. *)
Lemma validate_response_keeps_strings :
  exists r,
    @validate_response toy_platform gateway_conf
      (response_of (toy_signed stringly_fields)) toy_pub = (r, Ok r) /\
    resp_payload r =
      Some [("resultCode", VStr "0"); ("paymentStatus", VStr "7");
            ("authCode", VStr "F7A23E")].
Proof.
  exists (mkResponse 200 (Some (VDict (toy_signed stringly_fields)))
            (Some stringly_fields) (Some [])).
  split; vm_compute; reflexivity.
Qed.

(** * Further properties of the code *)

(** ** Ordered dictionaries, continued *)

Lemma od_get_set_same (k : string) (v : value) (d : odict) :
  od_get k (od_set k v d) = Some v.
Proof.
  induction d as [|[k' v'] d IH]; simpl.
  - rewrite String.eqb_refl. reflexivity.
  - destruct (String.eqb k k') eqn:E; simpl; rewrite E; [reflexivity | exact IH].
Qed.

Lemma od_get_set_other (k k0 : string) (v : value) (d : odict) :
  String.eqb k k0 = false ->
  od_get k (od_set k0 v d) = od_get k d.
Proof.
  intros Hne. induction d as [|[k' v'] d IH]; simpl.
  - rewrite Hne. reflexivity.
  - destruct (String.eqb k0 k') eqn:E; simpl.
    + apply String.eqb_eq in E. subst k'. rewrite Hne. reflexivity.
    + destruct (String.eqb k k'); [reflexivity | exact IH].
Qed.

Lemma od_keys_set (k : string) (v : value) (d : odict) :
  od_keys (od_set k v d) =
    if existsb (String.eqb k) (od_keys d) then od_keys d else od_keys d ++ [k].
Proof.
  induction d as [|[k' v'] d IH]; simpl; [reflexivity|].
  destruct (String.eqb k k') eqn:E; simpl; [reflexivity|].
  rewrite IH. destruct (existsb (String.eqb k) (od_keys d)); reflexivity.
Qed.

Lemma od_set_wf (k : string) (v : value) (d : odict) :
  od_wf d = true -> od_wf (od_set k v d) = true.
Proof.
  intros H. apply od_wf_NoDup. apply od_wf_NoDup in H. rewrite od_keys_set.
  destruct (existsb (String.eqb k) (od_keys d)) eqn:E; [exact H|].
  apply existsb_eqb_not_In in E.
  apply NoDup_app; [exact H | repeat constructor; intros [] |].
  intros a Ha [Hk|[]]. subst a. exact (E Ha).
Qed.

Lemma od_remove_set_fresh (k : string) (v : value) (d : odict) :
  existsb (String.eqb k) (od_keys d) = false ->
  od_remove k (od_set k v d) = d.
Proof.
  intros H. rewrite (od_set_fresh k v d H). unfold od_remove.
  rewrite filter_app. simpl. rewrite String.eqb_refl. simpl.
  rewrite app_nil_r. apply forallb_filter_id. apply forallb_forall.
  intros [k' v'] Hin. simpl. apply negb_true_iff.
  destruct (String.eqb k k') eqn:E; [|reflexivity].
  apply String.eqb_eq in E. subst k'. apply existsb_eqb_not_In in H.
  exfalso. apply H. unfold od_keys. apply in_map_iff.
  exists (k, v'). split; [reflexivity | exact Hin].
Qed.

(** [OrderedDict(pairs)] has no key twice and gives every key the value of
    its last pair. *)
Lemma fold_od_set_wf (pairs acc : odict) :
  od_wf acc = true ->
  od_wf (fold_left (fun d kv => od_set (fst kv) (snd kv) d) pairs acc) = true.
Proof.
  revert acc. induction pairs as [|[k v] pairs IH]; simpl; intros acc H.
  - exact H.
  - apply IH. apply od_set_wf. exact H.
Qed.

Lemma fold_od_set_get (pairs acc : odict) (k : string) :
  od_get k (fold_left (fun d kv => od_set (fst kv) (snd kv) d) pairs acc) =
    match od_get k (rev pairs) with
    | Some v => Some v
    | None => od_get k acc
    end.
Proof.
  revert acc. induction pairs as [|[k0 v0] pairs IH]; simpl; intros acc.
  - reflexivity.
  - rewrite IH, od_get_app. destruct (od_get k (rev pairs)); [reflexivity|].
    simpl. destruct (String.eqb k k0) eqn:E.
    + apply String.eqb_eq in E. subst k0. apply od_get_set_same.
    + apply od_get_set_other. exact E.
Qed.

Lemma od_get_rev_filter (f : string * value -> bool) (l : odict)
    (k : string) (v : value) :
  od_get k (rev (filter f l)) = Some v -> f (k, v) = true.
Proof.
  rewrite <- filter_rev. generalize (rev l). clear l.
  intros l. induction l as [|[k' v'] l IH]; simpl; [discriminate|].
  destruct (f (k', v')) eqn:Ef; simpl; [|exact IH].
  destruct (String.eqb k k') eqn:E; [|exact IH].
  apply String.eqb_eq in E. subst k'. intros H. inversion H; subst.
  exact Ef.
Qed.

(** ** Signing, continued *)

Lemma append_assoc (a b c : string) :
  ((a ++ b) ++ c)%string = (a ++ b ++ c)%string.
Proof. induction a as [|x a IH]; simpl; [reflexivity | rewrite IH; reflexivity]. Qed.

(** A value that holds the separator joins like the two values around
    it. *)
Lemma concat_split_value (sep u v : string) (l1 l2 : list string) :
  String.concat sep (l1 ++ (u ++ sep ++ v)%string :: l2) =
  String.concat sep (l1 ++ u :: v :: l2).
Proof.
  induction l1 as [|x l1 IH].
  - simpl. destruct l2 as [|y l2]; [reflexivity|].
    rewrite !append_assoc. reflexivity.
  - change ((x :: l1) ++ (u ++ sep ++ v)%string :: l2)
      with (x :: (l1 ++ (u ++ sep ++ v)%string :: l2)).
    change ((x :: l1) ++ u :: v :: l2) with (x :: (l1 ++ u :: v :: l2)).
    destruct l1 as [|y l1]; simpl in *; rewrite IH; reflexivity.
Qed.

Lemma without_None_keys (p : odict) (k : string) :
  existsb (String.eqb k) (od_keys p) = false ->
  od_get k (without_None p) = None.
Proof.
  intros H. apply od_get_none_keys. apply existsb_eqb_not_In.
  apply existsb_eqb_not_In in H. intros Hin. apply H.
  unfold od_keys, without_None in *. apply in_map_iff in Hin.
  destruct Hin as [kv [Hk Hin]]. apply filter_In in Hin.
  apply in_map_iff. exists kv. split; [exact Hk | apply Hin].
Qed.

Lemma without_None_rename (f : string -> string) (p : odict) :
  without_None (rename_fields f p) = rename_fields f (without_None p).
Proof.
  unfold without_None, rename_fields.
  induction p as [|[k v] p IH]; simpl; [reflexivity|].
  destruct (is_None v); simpl; rewrite IH; reflexivity.
Qed.

Lemma od_values_rename (f : string -> string) (p : odict) :
  od_values (rename_fields f p) = od_values p.
Proof.
  unfold od_values, rename_fields. rewrite map_map. reflexivity.
Qed.

Section MoreSigning.

Context {platform : Platform}.

(** Without a cart the message is the join of the values that are not
    None. *)
Lemma mk_msg_for_sign_no_cart (p : odict) :
  od_get "cart" (without_None p) = None ->
  mk_msg_for_sign p =
    Ok (encode_utf8
          (String.concat "|" (map str_or_jsbool (od_values (without_None p))))).
Proof. intros H. unfold mk_msg_for_sign. rewrite H. reflexivity. Qed.

Lemma extend_cart_msg_non_dict (items acc : list value) :
  forallb is_dict items = false ->
  extend_cart_msg acc items = Raise AttributeError.
Proof.
  revert acc. induction items as [|one items IH]; simpl; intros acc H.
  - discriminate.
  - destruct one; try reflexivity. simpl in *. apply IH. exact H.
Qed.

(** X1: the names of the fields are not part of what is signed.  Renaming
    the fields of a payload, no field being or becoming the cart, changes
    neither the canonical message nor the signature, and a signature
    verifies for the renamed payload exactly as for the original. *)
Theorem field_names_not_signed (f : string -> string) (p : odict)
    (signature : value) (key pub : string) :
  existsb (String.eqb "cart") (od_keys p) = false ->
  existsb (String.eqb "cart") (od_keys (rename_fields f p)) = false ->
  mk_msg_for_sign (rename_fields f p) = mk_msg_for_sign p /\
  sign (rename_fields f p) key = sign p key /\
  verify (rename_fields f p) signature pub = verify p signature pub.
Proof.
  intros H H'.
  assert (Hmsg : mk_msg_for_sign (rename_fields f p) = mk_msg_for_sign p).
  { rewrite !mk_msg_for_sign_no_cart by (apply without_None_keys; assumption).
    rewrite without_None_rename, od_values_rename. reflexivity. }
  split; [exact Hmsg|]. unfold sign, verify. rewrite Hmsg. split; reflexivity.
Qed.

(** X2: the separator is not escaped.  A text value that holds [|] gives
    the message of two fields holding the text before and the text after
    it, so the two payloads share every signature. *)
Theorem separator_not_escaped (pre post : odict) (k k1 k2 : string)
    (u v : string) (signature : value) (pub : string) :
  existsb (String.eqb "cart") (od_keys (pre ++ (k, VStr (u ++ "|" ++ v)) :: post))
    = false ->
  existsb (String.eqb "cart")
    (od_keys (pre ++ (k1, VStr u) :: (k2, VStr v) :: post)) = false ->
  mk_msg_for_sign (pre ++ (k, VStr (u ++ "|" ++ v)) :: post) =
    mk_msg_for_sign (pre ++ (k1, VStr u) :: (k2, VStr v) :: post) /\
  verify (pre ++ (k, VStr (u ++ "|" ++ v)) :: post) signature pub =
    verify (pre ++ (k1, VStr u) :: (k2, VStr v) :: post) signature pub.
Proof.
  intros H H'.
  assert (Hmsg : mk_msg_for_sign (pre ++ (k, VStr (u ++ "|" ++ v)) :: post) =
                 mk_msg_for_sign (pre ++ (k1, VStr u) :: (k2, VStr v) :: post)).
  { rewrite !mk_msg_for_sign_no_cart by (apply without_None_keys; assumption).
    rewrite !without_None_app. cbn [without_None filter snd is_None negb].
    fold (without_None post). unfold od_values. rewrite !map_app.
    cbn [map snd str_or_jsbool py_str].
    rewrite concat_split_value. reflexivity. }
  split; [exact Hmsg|]. unfold verify. rewrite Hmsg. reflexivity.
Qed.

(** X3: the only failure of the message builder is a cart it cannot
    flatten.  [mk_msg_for_sign] raises exactly when the payload has, under
    'cart', a value outside the empty values that is a number (TypeError),
    or a non-empty str or dict or a list with an item that is not a dict
    (AttributeError); [sign] and [verify] then raise the same exception
    whatever the key and the signature. *)
Theorem mk_msg_for_sign_raises (p : odict) (e : exn) :
  (mk_msg_for_sign p = Raise e <->
   exists cart,
     od_get "cart" (without_None p) = Some cart /\
     py_in cart EMPTY_VALUES = false /\
     cart_error cart = Some e) /\
  (mk_msg_for_sign p = Raise e ->
   forall key signature,
     sign p key = Raise e /\ verify p signature key = Raise e).
Proof.
  split.
  - unfold mk_msg_for_sign.
    destruct (od_get "cart" (without_None p)) as [cart|]; cbn [bind].
    + destruct (py_in cart EMPTY_VALUES) eqn:Ein; cbn [negb bind].
      * split; [discriminate|]. intros (c & Hc & Hin & _).
        inversion Hc; subst c. congruence.
      * split.
        -- intros H. exists cart. split; [reflexivity|]. split; [exact Ein|].
           destruct cart as [|b|z|s|items|d]; cbn [py_iter bind] in H.
           ++ discriminate Ein.
           ++ inversion H. reflexivity.
           ++ inversion H. reflexivity.
           ++ destruct s as [|c s]; [discriminate Ein|].
              cbn in H. inversion H. reflexivity.
           ++ cbn [cart_error]. destruct (forallb is_dict items) eqn:Ed.
              ** rewrite (extend_cart_msg_dicts items [] Ed) in H. discriminate H.
              ** rewrite (extend_cart_msg_non_dict items [] Ed) in H.
                 inversion H. reflexivity.
           ++ destruct d as [|[k v] d]; cbn in H; [discriminate H|].
              inversion H. reflexivity.
        -- intros (c & Hc & _ & Herr). inversion Hc; subst c.
           destruct cart as [|b|z|s|items|d]; cbn [py_iter bind cart_error] in *.
           ++ discriminate Ein.
           ++ inversion Herr. reflexivity.
           ++ inversion Herr. reflexivity.
           ++ destruct s as [|c s]; [discriminate Herr|].
              inversion Herr. reflexivity.
           ++ destruct (forallb is_dict items) eqn:Ed; [discriminate Herr|].
              rewrite (extend_cart_msg_non_dict items [] Ed).
              inversion Herr. reflexivity.
           ++ destruct d as [|[k v] d]; [discriminate Herr|].
              inversion Herr. reflexivity.
    + split; [discriminate|]. intros (c & Hc & _). discriminate Hc.
  - intros H key signature. unfold sign, verify. rewrite H. split; reflexivity.
Qed.

(** X4: what [mk_payload] returns for any pairs at all.  The payload has
    no name twice; its 'signature' is [sign] of the dict built from the
    pairs with a non-empty value; every other name carries the last
    non-empty value given for it, so no empty value is ever in a signed
    payload. *)
Theorem mk_payload_invariants (key : string) (pairs : list (string * value))
    (p : odict) :
  mk_payload key pairs = Ok p ->
  let fields := filter (fun kv => negb (py_in (snd kv) EMPTY_VALUES)) pairs in
  od_wf p = true /\
  (exists s,
     od_get "signature" p = Some (VStr s) /\
     sign (OrderedDict fields) key = Ok s) /\
  (forall k, String.eqb k "signature" = false ->
     od_get k p = od_get k (rev fields)) /\
  (forall k v, String.eqb k "signature" = false ->
     od_get k p = Some v -> py_in v EMPTY_VALUES = false).
Proof.
  intros H fields. unfold mk_payload in H. fold fields in H.
  destruct (sign (OrderedDict fields) key) as [s|e] eqn:Es; cbn [bind] in H;
    [|discriminate].
  inversion H as [Hp]. clear H.
  assert (Hget : forall k, String.eqb k "signature" = false ->
            od_get k (od_set "signature" (VStr s) (OrderedDict fields)) =
            od_get k (rev fields)).
  { intros k Hk. rewrite (od_get_set_other _ _ _ _ Hk).
    unfold OrderedDict. rewrite fold_od_set_get.
    destruct (od_get k (rev fields)); reflexivity. }
  split; [|split; [|split]].
  - apply od_set_wf. unfold OrderedDict. apply fold_od_set_wf. reflexivity.
  - exists s. split; [apply od_get_set_same | reflexivity].
  - exact Hget.
  - intros k v Hk Hv. rewrite (Hget k Hk) in Hv.
    apply od_get_rev_filter in Hv. apply negb_true_iff in Hv. exact Hv.
Qed.

(** X5: a payload built by [mk_payload] verifies once its signature is
    taken out.  For a matching key pair and pairs of which none with a
    non-empty value is named 'signature', [mk_payload] returns a payload
    whose 'signature' verifies, with the public key, over the payload
    without it; names given twice do not matter. *)
Theorem mk_payload_verifies (priv pub : string) (pairs : list (string * value)) :
  base64_round_trip ->
  valid_key_pair priv pub ->
  let fields :=
    OrderedDict (filter (fun kv => negb (py_in (snd kv) EMPTY_VALUES)) pairs) in
  cart_typed fields = true ->
  od_get "signature" fields = None ->
  exists p s,
    mk_payload priv pairs = Ok p /\
    od_get "signature" p = Some (VStr s) /\
    verify (od_remove "signature" p) (VStr s) pub = Ok true.
Proof.
  intros Hb64 (sk & pk & Hsk & Hpk & Hpair) fields Hc Hsig.
  destruct (mk_msg_for_sign_total fields Hc) as [msg Hm].
  destruct (Hpair (SHA_new msg)) as (s & Hs & Hv).
  exists (od_set "signature" (VStr (b64encode s)) fields), (b64encode s).
  split; [|split].
  - unfold mk_payload. fold fields.
    rewrite (sign_ok fields priv msg sk s Hm Hsk Hs). reflexivity.
  - apply od_get_set_same.
  - rewrite od_remove_set_fresh by (apply od_get_none_keys; exact Hsig).
    rewrite (verify_ok fields pub msg pk (b64encode s) s Hm Hpk (Hb64 s)).
    rewrite Hv. reflexivity.
Qed.

(** X6: a key that does not import is an error, never a refusal.  On a
    payload the builder accepts, [sign] and [verify] raise ValueError for
    such a key, [verify] whatever the signature is. *)
Theorem unimportable_key (p : odict) (key : string) (signature : value) :
  RSA_importKey key = None ->
  cart_typed p = true ->
  sign p key = Raise ValueError /\ verify p signature key = Raise ValueError.
Proof.
  intros Hk Hc. destruct (mk_msg_for_sign_total p Hc) as [msg Hm].
  unfold sign, verify, importKey. rewrite Hm, Hk. split; reflexivity.
Qed.

End MoreSigning.

(** ** Response validation, continued *)

Lemma copy_keys_wf (keys : list string) (data o : odict) :
  od_wf o = true -> od_wf (copy_keys keys data o) = true.
Proof.
  revert o. induction keys as [|k keys IH]; simpl; intros o H; [exact H|].
  destruct (od_get k data); apply IH; [apply od_set_wf|]; exact H.
Qed.

Lemma copy_keys_get (keys : list string) (data o : odict) (k : string) :
  od_get k (copy_keys keys data o) =
    if existsb (String.eqb k) keys
    then match od_get k data with
         | Some v => Some v
         | None => od_get k o
         end
    else od_get k o.
Proof.
  revert o. induction keys as [|k0 keys IH]; simpl; intros o; [reflexivity|].
  destruct (String.eqb k k0) eqn:E; simpl.
  - apply String.eqb_eq in E. subst k0.
    destruct (od_get k data) as [v|] eqn:Ev; rewrite IH.
    + try rewrite Ev. destruct (existsb (String.eqb k) keys); [reflexivity|].
      apply od_get_set_same.
    + try rewrite Ev. destruct (existsb (String.eqb k) keys); reflexivity.
  - destruct (od_get k0 data) as [v0|]; rewrite IH.
    + rewrite (od_get_set_other _ _ _ _ E). reflexivity.
    + reflexivity.
Qed.

Section MoreValidating.

Context {platform : Platform} {conf : Conf}.

Lemma decode_response_Ok (response : Response) (data : value) :
  decode_response response = Ok data ->
  http_ok response = true /\ json_body response = Some data.
Proof.
  unfold decode_response, raise_for_status, response_json, http_ok.
  destruct ((400 <=? status_code response)%Z && (status_code response <? 600)%Z);
    cbn; [discriminate|].
  destruct (json_body response); cbn; [|discriminate].
  intros H. inversion H. split; reflexivity.
Qed.

(** What a normal return of [validate_response] went through. *)
Lemma validate_response_returns (response r : Response) (key : string) :
  snd (validate_response response key) = Ok r ->
  exists body signature,
    http_ok response = true /\
    json_body response = Some (VDict body) /\
    od_get "signature" body = Some signature /\
    verify (copy_keys RESPONSE_KEYS (od_remove "signature" body) [])
      signature key = Ok true /\
    validate_extensions key (od_remove "signature" body)
      (with_payload (with_extensions response [])
         (copy_keys RESPONSE_KEYS (od_remove "signature" body) []))
      = (r, Ok tt).
Proof.
  rewrite validate_response_unfold.
  destruct (decode_response response) as [data|e] eqn:Ed; [|discriminate].
  apply decode_response_Ok in Ed. destruct Ed as [Hok Hjson].
  destruct data as [| | | | |body]; cbn [py_pop]; try discriminate.
  destruct (od_get "signature" body) as [signature|] eqn:Es; [|discriminate].
  cbv zeta.
  destruct (verify _ signature key) as [[|]|e] eqn:Ev; try discriminate.
  destruct (validate_extensions key _ _) as [r' [[]|e]] eqn:Ex; [|discriminate].
  cbn [snd]. intros H. inversion H; subst r'.
  exists body, signature. repeat split; assumption.
Qed.

(** X7: nothing is returned that did not verify.  Whenever
    [validate_response] returns, the status was no error status, the body
    was a JSON object with a 'signature', and that signature verified with
    the key over the payload attached to the response; the payload has no
    name twice, holds recognized names only, never 'signature', and each of
    its fields is a field of the body. *)
Theorem returned_payload_verified (response r : Response) (key : string) :
  snd (validate_response response key) = Ok r ->
  exists body signature payload,
    http_ok response = true /\
    json_body response = Some (VDict body) /\
    od_get "signature" body = Some signature /\
    resp_payload r = Some payload /\
    verify payload signature key = Ok true /\
    od_wf payload = true /\
    od_get "signature" payload = None /\
    forall k v,
      od_get k payload = Some v ->
      In k RESPONSE_KEYS /\ od_get k body = Some v.
Proof.
  intros H. apply validate_response_returns in H.
  destruct H as (body & signature & Hok & Hjson & Hsig & Hver & Hext).
  exists body, signature,
    (copy_keys RESPONSE_KEYS (od_remove "signature" body) []).
  split; [exact Hok|]. split; [exact Hjson|]. split; [exact Hsig|].
  split; [|split; [exact Hver|split; [|split]]].
  - pose proof (validate_extensions_payload key (od_remove "signature" body)
                  (with_payload (with_extensions response [])
                     (copy_keys RESPONSE_KEYS (od_remove "signature" body) [])))
      as Hp.
    rewrite Hext in Hp. exact Hp.
  - apply copy_keys_wf. reflexivity.
  - rewrite copy_keys_get, od_get_remove_eq.
    destruct (existsb (String.eqb "signature") RESPONSE_KEYS); reflexivity.
  - intros k v Hk. rewrite copy_keys_get in Hk.
    destruct (existsb (String.eqb k) RESPONSE_KEYS) eqn:E; [|discriminate].
    split; [apply existsb_eqb_In; exact E|].
    destruct (od_get k (od_remove "signature" body)) as [w|] eqn:Ew;
      [|discriminate].
    inversion Hk; subst w. exact (od_get_remove_Some _ _ _ _ Ew).
Qed.

(** One entry that passes either leaves the extensions alone or appends
    the verified sub-object of a recognized entry. *)
Lemma verify_extension_Ok (key : string) (one : value) (r r' : Response) :
  verify_extension key one r = (r', Ok tt) ->
  r' = r \/
  exists entry signature exts,
    one = VDict entry /\
    recognized entry = true /\
    od_get "signature" entry = Some signature /\
    verify (sub_object entry) signature key = Ok true /\
    resp_extensions r = Some exts /\
    r' = with_extensions r (exts ++ [sub_object entry]).
Proof.
  unfold verify_extension. run_M.
  destruct (py_getitem one "extension") as [kind|e] eqn:Ek; [|discriminate].
  destruct (py_in kind [VStr "maskClnRP"; VStr "maskCln"]) eqn:Ein.
  - destruct one as [| | | | |entry]; try discriminate.
    cbn [py_getitem] in *.
    rewrite (copy_keys_select _ _ maskclnrp_keys_NoDup).
    fold (sub_object entry).
    destruct (od_get "signature" entry) as [signature|] eqn:Es; [|discriminate].
    destruct (verify (sub_object entry) signature key) as [[|]|e] eqn:Ev;
      try discriminate.
    destruct (resp_extensions r) as [exts|] eqn:Ee; [|discriminate].
    intros H. inversion H. right. exists entry, signature, exts.
    split; [reflexivity|]. split.
    + unfold recognized. destruct (od_get "extension" entry); [|discriminate].
      inversion Ek; subst. exact Ein.
    + repeat split; try assumption; reflexivity.
  - intros H. inversion H. left. reflexivity.
Qed.

Lemma verify_extensions_Ok (key : string) (items : list value)
    (r r' : Response) (exts : list odict) :
  verify_extensions key items r = (r', Ok tt) ->
  resp_extensions r = Some exts ->
  exists added,
    resp_extensions r' = Some (exts ++ added) /\
    Forall (fun o => exists entry signature,
              In (VDict entry) items /\
              recognized entry = true /\
              o = sub_object entry /\
              od_get "signature" entry = Some signature /\
              verify o signature key = Ok true) added.
Proof.
  revert r exts. induction items as [|one items IH]; intros r exts H Hexts.
  - cbn in H. inversion H; subst r'. exists []. rewrite app_nil_r.
    split; [exact Hexts | constructor].
  - cbn [verify_extensions] in H. unfold bindM in H.
    destruct (verify_extension key one r) as [r1 [[]|e]] eqn:E1; [|discriminate].
    apply verify_extension_Ok in E1.
    destruct E1 as [->|(entry & signature & exts0 & -> & Hrec & Hs & Hv & He & ->)].
    + destruct (IH r exts H Hexts) as (added & Hr' & Hall).
      exists added. split; [exact Hr'|].
      eapply Forall_impl; [|exact Hall].
      intros o (en & sg & Hin & Hrest). exists en, sg.
      split; [right; exact Hin | exact Hrest].
    + rewrite Hexts in He. inversion He; subst exts0.
      destruct (IH _ (exts ++ [sub_object entry]) H eq_refl)
        as (added & Hr' & Hall).
      exists (sub_object entry :: added). split.
      * rewrite Hr', <- app_assoc. reflexivity.
      * constructor.
        -- exists entry, signature. split; [left; reflexivity|].
           repeat split; assumption.
        -- eapply Forall_impl; [|exact Hall].
           intros o (en & sg & Hin & Hrest). exists en, sg.
           split; [right; exact Hin | exact Hrest].
Qed.

(** X8: no extension is attached that did not verify.  Whenever
    [validate_response] returns, [response.extensions] is a list, and each
    of its members is the sub-object of an entry of a recognized kind listed
    under 'extensions' in the body whose own signature verified over it; a
    member holds none but the five names of a sub-object. *)
Theorem returned_extensions_verified (response r : Response) (key : string) :
  snd (validate_response response key) = Ok r ->
  exists body exts,
    json_body response = Some (VDict body) /\
    resp_extensions r = Some exts /\
    Forall (verified_extension key body) exts /\
    Forall (fun o => forall k, In k (od_keys o) -> In k maskclnrp_keys) exts.
Proof.
  intros H. apply validate_response_returns in H.
  destruct H as (body & signature & Hok & Hjson & Hsig & Hver & Hext).
  exists body. unfold validate_extensions, bindM, lift, ret in Hext.
  destruct (od_mem "extensions" (od_remove "signature" body)) eqn:Emem.
  - unfold od_mem in Emem. cbn [py_getitem] in Hext.
    rewrite od_get_remove_neq in Hext, Emem by reflexivity.
    destruct (od_get "extensions" body) as [listed|] eqn:El; [|discriminate].
    destruct (py_iter listed) as [items|e] eqn:Ei; [|discriminate].
    destruct (verify_extensions_Ok key items _ r [] Hext eq_refl)
      as (added & Hr & Hall).
    exists added. split; [exact Hjson|]. split; [exact Hr|]. split.
    + eapply Forall_impl; [|exact Hall].
      intros o (entry & sg & Hin & Hrec & Ho & Hs & Hv).
      exists listed, items, entry, sg. repeat split; assumption.
    + eapply Forall_impl; [|exact Hall].
      intros o (entry & sg & _ & _ & Ho & _) k Hk. subst o.
      unfold sub_object in Hk. rewrite select_keys_keys in Hk.
      apply filter_In in Hk. apply Hk.
  - inversion Hext; subst r. exists []. split; [exact Hjson|].
    split; [reflexivity|]. split; constructor.
Qed.

(** X9: a verified response without extensions.  When the body has no
    'extensions' key, or has one that iterates to nothing, the response is
    returned with the recognized fields as its payload and with an empty
    list of extensions; the object returned is the response handed in,
    updated. *)
Theorem verified_without_extensions (response : Response) (key : string)
    (body : odict) :
  NoDup RESPONSE_KEYS ->
  primary_verified response key body ->
  (od_get "extensions" body = None \/
   exists listed,
     od_get "extensions" body = Some listed /\ py_iter listed = Ok []) ->
  let r := with_payload (with_extensions response []) (recognized_fields body) in
  validate_response response key = (r, Ok r).
Proof.
  intros Hnd Hprim Hext r.
  rewrite (validate_response_verified response key body Hnd Hprim). fold r.
  unfold validate_extensions, od_mem. run_M. cbn [py_getitem].
  rewrite od_get_remove_neq by reflexivity.
  destruct Hext as [Hnone|(listed & Hl & Hi)].
  - rewrite Hnone. reflexivity.
  - rewrite Hl, Hi. reflexivity.
Qed.

Lemma select_keys_remove (keys : list string) (k : string) (d : odict) :
  existsb (String.eqb k) keys = false ->
  select_keys keys (od_remove k d) = select_keys keys d.
Proof.
  induction keys as [|k0 keys IH]; simpl; intros H; [reflexivity|].
  apply orb_false_iff in H. destruct H as [Hk Hrest].
  rewrite (od_get_remove_neq k0 k d Hk), (IH Hrest). reflexivity.
Qed.

(** X10: what [mk_payload] signs, [validate_response] accepts.  For a
    matching key pair and pairs whose non-empty fields have distinct
    recognized names in the recognized order, none 'signature' nor
    'extensions', the payload built by [mk_payload] is a body that
    [validate_response] returns with exactly those fields as payload and no
    extensions, whatever the good status. *)
Theorem signed_payload_validates (priv pub : string)
    (pairs : list (string * value)) :
  base64_round_trip ->
  valid_key_pair priv pub ->
  NoDup RESPONSE_KEYS ->
  let fields := filter (fun kv => negb (py_in (snd kv) EMPTY_VALUES)) pairs in
  od_wf fields = true ->
  select_keys RESPONSE_KEYS fields = fields ->
  cart_typed fields = true ->
  od_get "signature" fields = None ->
  od_get "extensions" fields = None ->
  exists body,
    mk_payload priv pairs = Ok body /\
    forall response,
      http_ok response = true ->
      json_body response = Some (VDict body) ->
      exists r,
        validate_response response pub = (r, Ok r) /\
        resp_payload r = Some fields /\
        resp_extensions r = Some [].
Proof.
  intros Hb64 (sk & pk & Hsk & Hpk & Hpair) Hnd fields Hwf Hsel Hc Hsig Hext.
  destruct (mk_msg_for_sign_total fields Hc) as [msg Hm].
  destruct (Hpair (SHA_new msg)) as (s & Hs & Hv).
  exists (od_set "signature" (VStr (b64encode s)) fields). split.
  - unfold mk_payload. fold fields. rewrite (OrderedDict_wf fields Hwf).
    rewrite (sign_ok fields priv msg sk s Hm Hsk Hs). reflexivity.
  - intros response Hok Hjson.
    assert (Hrec : recognized_fields
                     (od_set "signature" (VStr (b64encode s)) fields) = fields).
    { unfold recognized_fields.
      rewrite od_remove_set_fresh by (apply od_get_none_keys; exact Hsig).
      exact Hsel. }
    assert (Hprim : primary_verified response pub
                      (od_set "signature" (VStr (b64encode s)) fields)).
    { split; [exact Hok|]. split; [exact Hjson|].
      exists (VStr (b64encode s)). split; [apply od_get_set_same|].
      rewrite Hrec.
      rewrite (verify_ok fields pub msg pk (b64encode s) s Hm Hpk (Hb64 s)).
      rewrite Hv. reflexivity. }
    eexists. split.
    + rewrite (validate_response_verified response pub _ Hnd Hprim).
      unfold validate_extensions, od_mem. run_M.
      rewrite od_get_remove_neq by reflexivity.
      rewrite (od_get_set_other "extensions" "signature" _ _ eq_refl), Hext.
      reflexivity.
    + rewrite Hrec. split; reflexivity.
Qed.

Lemma validate_response_stops_value (response : Response) (key : string)
    (body : odict) (pre : list odict) (one : value) (post : list value)
    (e : exn) :
  NoDup RESPONSE_KEYS ->
  primary_verified response key body ->
  od_get "extensions" body = Some (VList (map VDict pre ++ one :: post)) ->
  Forall (ext_passes key) pre ->
  (forall r', verify_extension key one r' = (r', Raise e)) ->
  snd (validate_response response key) = Raise e.
Proof.
  intros Hnd Hprim Hext Hpre Hstop.
  rewrite (validate_response_verified response key body Hnd Hprim).
  rewrite (validate_extensions_list key _ (map VDict pre ++ one :: post));
    [|rewrite od_get_remove_neq; [exact Hext | reflexivity]].
  rewrite verify_extensions_app.
  rewrite (verify_extensions_pass key pre
             (with_payload (with_extensions response []) (recognized_fields body))
             [] Hpre eq_refl).
  cbn [verify_extensions]. unfold bindM. rewrite Hstop. reflexivity.
Qed.

(** X11: a malformed entry under 'extensions' is an error of its own.
    Once the response has verified and the entries before it have passed,
    an entry that is not a JSON object raises TypeError and an object
    without the 'extension' key raises KeyError, also where an entry of
    another kind would have been skipped. *)
Theorem malformed_extension_entry (response : Response) (key : string)
    (body : odict) (pre : list odict) (one : value) (post : list value) :
  NoDup RESPONSE_KEYS ->
  primary_verified response key body ->
  od_get "extensions" body = Some (VList (map VDict pre ++ one :: post)) ->
  Forall (ext_passes key) pre ->
  (is_dict one = false ->
   snd (validate_response response key) = Raise TypeError) /\
  (forall entry,
     one = VDict entry ->
     od_get "extension" entry = None ->
     snd (validate_response response key) = Raise (KeyError "extension")).
Proof.
  intros Hnd Hprim Hext Hpre. split.
  - intros Hd.
    apply (validate_response_stops_value response key body pre one post);
      try assumption.
    intros r'. unfold verify_extension. run_M.
    destruct one; try reflexivity. discriminate Hd.
  - intros entry -> Hk.
    apply (validate_response_stops_value response key body pre (VDict entry) post);
      try assumption.
    intros r'. unfold verify_extension. run_M. cbn [py_getitem].
    rewrite Hk. reflexivity.
Qed.

(** X12: an 'extensions' value that cannot be iterated.  When the body
    verifies and carries None or a number under 'extensions',
    [validate_response] raises TypeError; by then the response object has
    its payload and an empty list of extensions, and nothing is returned. *)
Theorem extensions_not_iterable (response : Response) (key : string)
    (body : odict) (listed : value) (e : exn) :
  NoDup RESPONSE_KEYS ->
  primary_verified response key body ->
  od_get "extensions" body = Some listed ->
  py_iter listed = Raise e ->
  e = TypeError /\
  validate_response response key =
    (with_payload (with_extensions response []) (recognized_fields body),
     Raise TypeError).
Proof.
  intros Hnd Hprim Hext Hiter.
  assert (He : e = TypeError).
  { destruct listed; cbn in Hiter; inversion Hiter; reflexivity. }
  split; [exact He|]. subst e.
  rewrite (validate_response_verified response key body Hnd Hprim).
  unfold validate_extensions, od_mem. run_M. cbn [py_getitem].
  rewrite od_get_remove_neq by reflexivity. rewrite Hext, Hiter. reflexivity.
Qed.

(** *** [gateway_return] *)

Lemma gateway_return_fields_total (keys : list string) (datadict o : odict) :
  ints_convert (select_keys keys datadict) ->
  exists o', gateway_return_fields keys datadict o = Ok o'.
Proof.
  revert o. induction keys as [|k keys IH]; intros o Hint.
  - exists o. reflexivity.
  - rewrite select_keys_cons in Hint. cbn [gateway_return_fields].
    destruct (od_get k datadict) as [v|].
    + unfold ints_convert in Hint. cbn [app] in Hint.
      inversion Hint as [|? ? Hv Hrest]; subst. cbn [fst snd] in Hv.
      fold (int_typed k). destruct (int_typed k).
      * destruct (Hv eq_refl) as [z Hz]. rewrite Hz. cbn [bind].
        apply IH. exact Hrest.
      * cbn [bind]. apply IH. exact Hrest.
    + apply IH. exact Hint.
Qed.

Lemma gateway_return_fields_keys_app (pre rest : list string)
    (datadict o : odict) :
  gateway_return_fields (pre ++ rest) datadict o =
    (o' <- gateway_return_fields pre datadict o ;;
     gateway_return_fields rest datadict o').
Proof.
  revert o. induction pre as [|k pre IH]; intros o; [reflexivity|].
  cbn [app gateway_return_fields].
  destruct (od_get k datadict) as [v|]; [|apply IH].
  destruct (if existsb (String.eqb k) ["resultCode"; "paymentStatus"]
            then py_int v else Ok v) as [v'|e]; cbn [bind]; [apply IH | reflexivity].
Qed.

(** X13: a result code or payment status that [int] does not accept stops
    [gateway_return] before any verification.  When the conversions of the
    recognized fields before it succeed, the exception of the failing
    conversion (ValueError for text that is no number, TypeError for None
    or a container) is what [gateway_return] raises, whatever the signature
    and the key. *)
Theorem gateway_return_conversion_error (self : CsobClient) (datadict : odict)
    (pre post : list string) (k : string) (v : value) (e : exn) :
  RESPONSE_KEYS = pre ++ k :: post ->
  ints_convert (select_keys pre datadict) ->
  int_typed k = true ->
  od_get k datadict = Some v ->
  py_int v = Raise e ->
  gateway_return self datadict = Raise e.
Proof.
  intros Hkeys Hpre Hk Hget Hint. unfold gateway_return. rewrite Hkeys.
  rewrite gateway_return_fields_keys_app.
  destruct (gateway_return_fields_total pre datadict [] Hpre) as [o' Ho'].
  rewrite Ho'. cbn [bind gateway_return_fields]. rewrite Hget.
  fold (int_typed k). rewrite Hk, Hint. reflexivity.
Qed.

(** X14: the signature errors of [gateway_return].  With the recognized
    fields converted, data without a 'signature' raises KeyError, and a
    signature that does not verify over the converted fields raises
    [CsobVerifyError] with 'Unverified gateway return data'; no field is
    handed back in either case. *)
Theorem gateway_return_signature_errors (self : CsobClient) (datadict : odict) :
  NoDup RESPONSE_KEYS ->
  ints_convert (select_keys RESPONSE_KEYS datadict) ->
  (od_get "signature" datadict = None ->
   gateway_return self datadict = Raise (KeyError "signature")) /\
  (forall signature,
     od_get "signature" datadict = Some signature ->
     verify (map retype (select_keys RESPONSE_KEYS datadict)) signature
       (pubkey self) = Ok false ->
     gateway_return self datadict =
       Raise (CsobVerifyError "Unverified gateway return data")).
Proof.
  intros Hnd Hint. unfold gateway_return.
  rewrite (gateway_return_fields_app _ _ [] Hnd); [|intros k _ []|exact Hint].
  cbn [app bind py_getitem]. split.
  - intros Hsig. rewrite Hsig. reflexivity.
  - intros signature Hsig Hver. rewrite Hsig. cbn [bind].
    rewrite Hver. reflexivity.
Qed.

Lemma map_retype_ints (fields : odict) :
  Forall (fun kv => int_typed (fst kv) = true -> exists z, snd kv = VInt z)
    fields ->
  map retype fields = fields /\ ints_convert fields.
Proof.
  induction 1 as [|[k v] fields Hkv _ [IHm IHc]]; [split; constructor|].
  cbn [fst snd] in Hkv. split.
  - cbn [map]. rewrite IHm. f_equal. unfold retype. cbn [fst snd].
    destruct (int_typed k); [|reflexivity].
    destruct (Hkv eq_refl) as [z ->]. reflexivity.
  - constructor; [|exact IHc]. cbn [fst snd]. intros Hk.
    destruct (Hkv Hk) as [z ->]. exists z. reflexivity.
Qed.

(** X15: the two validators agree on typed data.  When 'signature' is no
    recognized key and the result code and payment status of a verified
    body are integers already, [gateway_return] on the body hands back the
    very payload that [validate_response] attaches. *)
Theorem validators_agree (self : CsobClient) (response : Response)
    (body : odict) :
  NoDup RESPONSE_KEYS ->
  existsb (String.eqb "signature") RESPONSE_KEYS = false ->
  primary_verified response (pubkey self) body ->
  Forall (fun kv => int_typed (fst kv) = true -> exists z, snd kv = VInt z)
    (recognized_fields body) ->
  gateway_return self body = Ok (recognized_fields body) /\
  resp_payload (fst (validate_response response (pubkey self))) =
    Some (recognized_fields body).
Proof.
  intros Hnd Hsig Hprim Hints.
  pose proof Hprim as (_ & _ & signature & Hs & Hver).
  assert (Hsel : select_keys RESPONSE_KEYS body = recognized_fields body).
  { unfold recognized_fields. rewrite select_keys_remove by exact Hsig.
    reflexivity. }
  destruct (map_retype_ints _ Hints) as [Hmap Hconv]. split.
  - unfold gateway_return.
    rewrite (gateway_return_fields_app _ _ [] Hnd);
      [|intros k _ []|rewrite Hsel; exact Hconv].
    cbn [app bind py_getitem]. rewrite Hs. cbn [bind].
    rewrite Hsel, Hmap, Hver. reflexivity.
  - rewrite (validate_response_verified response _ body Hnd Hprim).
    pose proof (validate_extensions_payload (pubkey self)
                  (od_remove "signature" body)
                  (with_payload (with_extensions response [])
                     (recognized_fields body))) as Hp.
    destruct (validate_extensions _ _ _) as [r [u|e]]; exact Hp.
Qed.

End MoreValidating.

(** ** The card provider lookup *)

Lemma class_digits_only_sound d cl c :
  class_digits_only cl = true -> in_class d cl c = true ->
  digit_like d c = true.
Proof.
  unfold digit_like, is_ascii_digit. destruct cl as [c'|lo hi|cs|]; simpl.
  - intros H E. apply N.eqb_eq in E. subst. unfold is_ascii_digit in H.
    rewrite H. reflexivity.
  - unfold is_ascii_digit. intros H E.
    apply andb_true_iff in H. destruct H as [H1 H2].
    apply andb_true_iff in H1, H2, E.
    destruct H1 as [H1 _], H2 as [_ H2], E as [E1 E2].
    apply N.leb_le in H1, H2, E1, E2.
    replace (48 <=? c)%N with true by (symmetry; apply N.leb_le; lia).
    replace (c <=? 57)%N with true by (symmetry; apply N.leb_le; lia).
    reflexivity.
  - intros H E. apply existsb_exists in E. destruct E as [x [Hin Hx]].
    apply N.eqb_eq in Hx. subst x.
    rewrite forallb_forall in H. specialize (H c Hin).
    unfold is_ascii_digit in H. rewrite H. reflexivity.
  - intros _ E. rewrite E. apply orb_true_r.
Qed.

(** A match consumes a prefix of what is left: at least [min_width]
    characters, and digits only when the classes of the pattern hold
    digits only. *)
Lemma re_run_sound d r : forall p rest p' rest',
  In (p', rest') (re_run d r (p, rest)) ->
  exists pre,
    rest = pre ++ rest' /\ p' = p + List.length pre /\
    min_width r <= List.length pre /\
    (digits_only r = true -> Forall (fun c => digit_like d c = true) pre).
Proof.
  induction r as [| | |cl|r1 IH1 r2 IH2|r1 IH1 r2 IH2];
    intros p rest p' rest' H; simpl in H.
  - destruct H as [H|[]]. inversion H; subst. exists []. simpl.
    repeat split; auto.
  - destruct p; simpl in H; [|destruct H]. destruct H as [H|[]].
    inversion H; subst. exists []. repeat split; auto.
  - destruct rest as [|c [|c' rest]]; simpl in H.
    + destruct H as [H|[]]. inversion H; subst. exists [].
      repeat split; auto.
    + destruct (N.eqb c 10); simpl in H; [|destruct H].
      destruct H as [H|[]]. inversion H; subst. exists [].
      repeat split; auto.
    + destruct H.
  - destruct rest as [|c rest]; simpl in H; [destruct H|].
    destruct (in_class d cl c) eqn:E; simpl in H; [|destruct H].
    destruct H as [H|[]]. inversion H; subst. exists [c]. simpl.
    repeat split; auto.
    + lia.
    + intros Hd. constructor; [|constructor].
      exact (class_digits_only_sound d cl c Hd E).
  - apply in_flat_map in H. destruct H as [[p1 rest1] [H1 H2]].
    apply IH1 in H1. apply IH2 in H2.
    destruct H1 as (pre1 & -> & -> & Hw1 & Hd1).
    destruct H2 as (pre2 & -> & -> & Hw2 & Hd2).
    exists (pre1 ++ pre2). rewrite <- app_assoc, List.length_app. simpl.
    repeat split; try lia.
    intros Hd. apply andb_true_iff in Hd. destruct Hd as [Ha Hb].
    apply Forall_app. split; auto.
  - apply in_app_or in H. destruct H as [H|H].
    + apply IH1 in H. destruct H as (pre & -> & -> & Hw & Hd).
      exists pre. simpl. repeat split; try lia.
      intros Hx. apply andb_true_iff in Hx. apply Hd, Hx.
    + apply IH2 in H. destruct H as (pre & -> & -> & Hw & Hd).
      exists pre. simpl. repeat split; try lia.
      intros Hx. apply andb_true_iff in Hx. apply Hd, Hx.
Qed.

(** Only the characters of the text matter to what [\d] stands for. *)
Lemma re_run_ext d d' r : forall p rest,
  Forall (fun c => d c = d' c) rest ->
  re_run d r (p, rest) = re_run d' r (p, rest).
Proof.
  induction r as [| | |cl|r1 IH1 r2 IH2|r1 IH1 r2 IH2];
    intros p rest H; simpl; try reflexivity.
  - destruct rest as [|c rest]; [reflexivity|]. inversion H; subst.
    destruct cl; simpl; try reflexivity. rewrite H2. reflexivity.
  - rewrite (IH1 p rest H).
    assert (Hall : forall st, In st (re_run d' r1 (p, rest)) ->
                     re_run d r2 st = re_run d' r2 st).
    { intros [p1 rest1] Hin. apply IH2. apply re_run_sound in Hin.
      destruct Hin as (pre & -> & _). apply Forall_app in H. apply H. }
    revert Hall. generalize (re_run d' r1 (p, rest)). intros l Hall.
    induction l as [|st l IHl]; simpl; [reflexivity|].
    rewrite Hall by (left; reflexivity). rewrite IHl; [reflexivity|].
    intros st' Hin. apply Hall. right. exact Hin.
  - rewrite (IH1 p rest H), (IH2 p rest H). reflexivity.
Qed.

Lemma re_run_ends d r : forall p rest p' rest',
  In (p', rest') (re_run d r (p, rest)) -> In p' (ends r p).
Proof.
  induction r as [| | |cl|r1 IH1 r2 IH2|r1 IH1 r2 IH2];
    intros p rest p' rest' H; simpl in *.
  - destruct H as [H|[]]. inversion H. left. reflexivity.
  - destruct p; simpl in H; [|destruct H]. destruct H as [H|[]].
    inversion H. left; reflexivity.
  - destruct rest as [|c [|c' rest]]; simpl in H.
    + destruct H as [H|[]]. inversion H. left; reflexivity.
    + destruct (N.eqb c 10); simpl in H; [|destruct H].
      destruct H as [H|[]]. inversion H. left; reflexivity.
    + destruct H.
  - destruct rest as [|c rest]; simpl in H; [destruct H|].
    destruct (in_class d cl c); simpl in H; [|destruct H].
    destruct H as [H|[]]. inversion H. left; reflexivity.
  - apply in_flat_map in H. destruct H as [[p1 rest1] [H1 H2]].
    apply in_flat_map. exists p1.
    split; [eapply IH1; eauto | eapply IH2; eauto].
  - apply in_app_or in H. apply in_or_app.
    destruct H as [H|H]; [left; eapply IH1 | right; eapply IH2]; eauto.
Qed.

Lemma Forall2_flat_map_in (A B : Type) (R : A -> A -> Prop)
    (S : B -> B -> Prop) (f f' : A -> list B) (l l' : list A) :
  Forall2 R l l' ->
  (forall x x', In x l -> R x x' -> Forall2 S (f x) (f' x')) ->
  Forall2 S (flat_map f l) (flat_map f' l').
Proof.
  induction 1 as [|x x' l l' Hx Hl IH]; intros Hf; simpl; [constructor|].
  apply Forall2_app.
  - apply Hf; [left; reflexivity | exact Hx].
  - apply IH. intros y y' Hin Hy. apply Hf; [right; exact Hin | exact Hy].
Qed.

Lemma digit_wide_accepts d cl c :
  (forall x, is_ascii_digit x = true -> d x = true) ->
  digit_wide cl = true -> is_ascii_digit c = true -> in_class d cl c = true.
Proof.
  intros Hd Hw Hc. destruct cl as [c'|lo hi|cs|]; simpl in *; try discriminate.
  - unfold is_ascii_digit in Hc. apply andb_true_iff in Hw, Hc.
    destruct Hw as [H1 H2], Hc as [H3 H4]. apply N.leb_le in H1, H2, H3, H4.
    apply andb_true_iff. split; apply N.leb_le; lia.
  - apply Hd. exact Hc.
Qed.

(** A pattern that from position [n] on tests digit-wide classes only runs
    alike on two texts that agree up to [n] and hold ASCII digits after. *)
Lemma re_run_tail (n : nat) d r :
  (forall x, is_ascii_digit x = true -> d x = true) ->
  forall st st',
    tail_ok n r (fst st) = true ->
    same_state n st st' ->
    Forall2 (same_state n) (re_run d r st) (re_run d r st').
Proof.
  intros Hd.
  induction r as [| | |cl|r1 IH1 r2 IH2|r1 IH1 r2 IH2];
    intros [p rest] [p' rest'] Hok [Hp Hs]; simpl in Hp, Hs, Hok; subst p';
    simpl.
  - repeat constructor; assumption.
  - destruct p; repeat constructor; assumption.
  - destruct rest as [|c rest], rest' as [|c' rest']; simpl in Hs;
      try contradiction.
    + repeat constructor.
    + destruct rest as [|c2 rest], rest' as [|c2' rest']; simpl in Hs.
      * destruct (n - p) as [|k] eqn:Ek.
        -- destruct Hs as (Hc & Hc' & _).
           assert (N.eqb c 10 = false /\ N.eqb c' 10 = false) as [E1 E2].
           { unfold is_ascii_digit in *. apply andb_true_iff in Hc, Hc'.
             destruct Hc as [Hc _], Hc' as [Hc' _]. apply N.leb_le in Hc, Hc'.
             split; apply N.eqb_neq; lia. }
           rewrite E1, E2. constructor.
        -- destruct Hs as [-> _].
           destruct (N.eqb c' 10); repeat constructor; simpl;
             try reflexivity.
           rewrite Ek. simpl. auto.
      * destruct (n - p); intuition.
      * destruct (n - p); intuition.
      * constructor.
  - destruct rest as [|c rest], rest' as [|c' rest']; simpl in Hs;
      try contradiction.
    + constructor.
    + destruct (n - p) as [|k] eqn:Ek.
      * destruct Hs as (Hc & Hc' & Hs).
        assert (Hw : digit_wide cl = true).
        { apply orb_true_iff in Hok. destruct Hok as [Hlt|Hw]; [|exact Hw].
          apply Nat.ltb_lt in Hlt. lia. }
        rewrite (digit_wide_accepts d cl c Hd Hw Hc),
          (digit_wide_accepts d cl c' Hd Hw Hc').
        repeat constructor; simpl. replace (n - S p) with 0 by lia. exact Hs.
      * destruct Hs as [-> Hs].
        destruct (in_class d cl c'); repeat constructor; simpl.
        replace (n - S p) with k by lia. exact Hs.
  - apply andb_true_iff in Hok. destruct Hok as [Hok1 Hok2].
    apply Forall2_flat_map_in with (R := same_state n).
    + apply IH1; [exact Hok1 | split; [reflexivity | exact Hs]].
    + intros [p1 rest1] st1' Hin HR. apply IH2; [|exact HR].
      rewrite forallb_forall in Hok2. apply Hok2. simpl.
      eapply re_run_ends. exact Hin.
  - apply andb_true_iff in Hok. destruct Hok as [Hok1 Hok2].
    apply Forall2_app; [apply IH1 | apply IH2]; try assumption; split; auto.
Qed.

Lemma is_ascii_digit_In c : is_ascii_digit c = true -> In c ascii_digits.
Proof.
  unfold is_ascii_digit. intros H. apply andb_true_iff in H.
  destruct H as [H1 H2]. apply N.leb_le in H1, H2.
  assert (c = 48 \/ c = 49 \/ c = 50 \/ c = 51 \/ c = 52 \/
          c = 53 \/ c = 54 \/ c = 55 \/ c = 56 \/ c = 57)%N as H by lia.
  unfold ascii_digits. simpl. intuition.
Qed.

Lemma index_eqb_eq a b : index_eqb a b = true -> a = b.
Proof.
  destruct a, b; simpl; try discriminate; try reflexivity.
  intros H. apply Nat.eqb_eq in H. subst. reflexivity.
Qed.

Section CardProviders.

Context {cards : CardConf}.

Lemma re_match_needs d r s :
  re_match d r s = true ->
  exists pre rest,
    s = pre ++ rest /\ min_width r <= List.length pre /\
    (digits_only r = true -> Forall (fun c => digit_like d c = true) pre).
Proof.
  unfold re_match.
  destruct (re_run d r (0, s)) as [|[p' rest'] l] eqn:E; [discriminate|].
  intros _.
  assert (Hin : In (p', rest') (re_run d r (0, s)))
    by (rewrite E; left; reflexivity).
  apply re_run_sound in Hin. destruct Hin as (pre & Hs & _ & Hw & Hd).
  exists pre, rest'. auto.
Qed.

Lemma first_provider_none d providers s :
  (forall pr, In pr providers -> re_match d (snd pr) s = false) ->
  first_provider d providers s = None.
Proof.
  induction providers as [|[pid rx] providers IH]; intros H; simpl;
    [reflexivity|].
  pose proof (H (pid, rx) (or_introl eq_refl)) as Hm. simpl in Hm.
  rewrite Hm. apply IH.
  intros pr Hin. apply H. right. exact Hin.
Qed.

(** Every pattern of the table needs six characters and tests digits
    only. *)
Lemma PROVIDERS_shape :
  forallb (fun pr => Nat.leb 6 (min_width (snd pr)) && digits_only (snd pr))
    PROVIDERS = true.
Proof. reflexivity. Qed.

(** X16: a number of fewer than six characters, or one whose first six
    characters hold anything but a digit, has no provider:
    [get_card_provider] returns [None, None], whatever the table of names
    holds. *)
Theorem no_provider_without_six_digits (s : list N) :
  List.length s < 6 \/
  existsb (fun c => negb (digit_like unicode_decimal c)) (firstn 6 s) = true ->
  get_card_provider s = Some (None, None).
Proof.
  intros H. unfold get_card_provider.
  rewrite first_provider_none; [reflexivity|].
  intros pr Hin.
  pose proof PROVIDERS_shape as Hshape. rewrite forallb_forall in Hshape.
  specialize (Hshape pr Hin). apply andb_true_iff in Hshape.
  destruct Hshape as [Hw Hd]. apply Nat.leb_le in Hw.
  destruct (re_match unicode_decimal (snd pr) (firstn 6 s)) eqn:E;
    [|reflexivity].
  exfalso. apply re_match_needs in E.
  destruct E as (pre & rest & Hs & Hlen & Hdig).
  assert (Hl : List.length (firstn 6 s) <= 6 /\
               List.length (firstn 6 s) <= List.length s).
  { rewrite List.length_firstn.
    split; [apply Nat.le_min_l | apply Nat.le_min_r]. }
  assert (Hpre : List.length pre + List.length rest = List.length (firstn 6 s))
    by (rewrite Hs, List.length_app; reflexivity).
  destruct H as [H|H].
  - lia.
  - assert (rest = [])
      by (destruct rest; [reflexivity | cbn [List.length] in Hpre; lia]).
    subst rest. rewrite app_nil_r in Hs. subst pre.
    apply existsb_exists in H. destruct H as [c [Hin' Hc]].
    specialize (Hdig Hd). rewrite Forall_forall in Hdig.
    rewrite (Hdig c Hin') in Hc. discriminate.
Qed.

(** The third pattern needs seven characters. *)
Lemma diners_never d s :
  List.length s <= 6 ->
  re_match d (snd (nth 2 PROVIDERS (CARD_PROVIDER_DINERS, Eps))) s = false.
Proof.
  intros Hl. destruct (re_match d _ s) eqn:E; [|reflexivity].
  apply re_match_needs in E. destruct E as (pre & rest & Hs & Hw & _).
  cbn in Hw. rewrite Hs, List.length_app in Hl. lia.
Qed.

(** X17: [get_card_provider] never answers Diners Club.  The pattern of
    that provider asks for seven digits and is matched against the first six
    characters, so the answer is always that of Visa, American Express, JCB,
    MasterCard or no provider. *)
Theorem never_diners (s : list N) :
  exists found,
    In found [None; Some CARD_PROVIDER_VISA; Some CARD_PROVIDER_AMEX;
              Some CARD_PROVIDER_JCB; Some CARD_PROVIDER_MC] /\
    get_card_provider s = card_answer found.
Proof.
  unfold get_card_provider.
  assert (Hl : List.length (firstn 6 s) <= 6) by apply firstn_le_length.
  pose proof (diners_never unicode_decimal (firstn 6 s) Hl) as Hd.
  unfold PROVIDERS in *. cbn [nth snd] in Hd. cbn [first_provider].
  rewrite Hd.
  repeat match goal with
         | |- context [if re_match ?d ?r ?x then _ else _] =>
             destruct (re_match d r x)
         end;
    eexists; (split; [|reflexivity]); simpl; tauto.
Qed.

(** The table holds for the ten thousand beginnings of four ASCII digits,
    followed by two zeros. *)
Lemma table_check :
  forallb (fun a => forallb (fun b => forallb (fun c => forallb (fun d =>
    index_eqb (first_index is_ascii_digit rxs [a; b; c; d; 48; 48]%N 0)
              (bin_index (digits_value [a; b; c; d])))
    ascii_digits) ascii_digits) ascii_digits) ascii_digits = true.
Proof. vm_compute. reflexivity. Qed.

Lemma re_match_tail d r s s' :
  (forall x, is_ascii_digit x = true -> d x = true) ->
  tail_ok 4 r 0 = true ->
  same_head 4 s s' ->
  re_match d r s = re_match d r s'.
Proof.
  intros Hd Hok Hs. unfold re_match.
  assert (H : Forall2 (same_state 4) (re_run d r (0, s)) (re_run d r (0, s'))).
  { apply re_run_tail; [exact Hd | exact Hok | split; [reflexivity | exact Hs]]. }
  destruct H; reflexivity.
Qed.

Lemma re_match_ext d d' r s :
  Forall (fun c => d c = d' c) s ->
  re_match d r s = re_match d' r s.
Proof.
  intros H. unfold re_match. rewrite (re_run_ext d d' r 0 s H). reflexivity.
Qed.

Lemma first_index_ext d d' rs s s' i :
  (forall r, In r rs -> re_match d r s = re_match d' r s') ->
  first_index d rs s i = first_index d' rs s' i.
Proof.
  revert i. induction rs as [|r rs IH]; intros i H; simpl; [reflexivity|].
  rewrite (H r) by (left; reflexivity).
  rewrite IH; [reflexivity|]. intros r' Hin. apply H. right. exact Hin.
Qed.

Lemma first_provider_index d providers s i :
  first_provider d providers s =
    match first_index d (map snd providers) s i with
    | Some j => nth_error (map fst providers) (j - i)
    | None => None
    end.
Proof.
  revert i. induction providers as [|[pid rx] providers IH]; intros i; simpl;
    [reflexivity|].
  destruct (re_match d rx s).
  - rewrite Nat.sub_diag. reflexivity.
  - rewrite (IH (S i)).
    assert (Hge : forall rs k j, first_index d rs s k = Some j -> k <= j).
    { induction rs as [|r rs IHr]; intros k j; simpl; [discriminate|].
      destruct (re_match d r s).
      - intros H. inversion H. lia.
      - intros H. apply IHr in H. lia. }
    destruct (first_index d (map snd providers) s (S i)) as [j|] eqn:E;
      [|reflexivity].
    apply Hge in E. replace (j - i) with (S (j - S i)) by lia. reflexivity.
Qed.

Lemma bin_provider_index (prefix : N) :
  bin_provider prefix =
    match bin_index prefix with
    | Some j => nth_error (map fst PROVIDERS) j
    | None => None
    end.
Proof.
  unfold bin_provider, bin_index.
  destruct (between 4000 4999 prefix); [reflexivity|].
  destruct (between 3400 3499 prefix || between 3700 3799 prefix);
    [reflexivity|].
  destruct (N.eqb prefix 2131 || N.eqb prefix 1800 || between 3500 3599 prefix);
    [reflexivity|].
  destruct (between 5100 5599 prefix || between 2221 2229 prefix
            || N.eqb prefix 2720);
    reflexivity.
Qed.

(** After the fourth character every pattern of the table tests
    digit-wide classes only. *)
Lemma rxs_tail_ok : forallb (fun r => tail_ok 4 r 0) rxs = true.
Proof. reflexivity. Qed.

Lemma table_lookup (a b c d : N) :
  In a ascii_digits -> In b ascii_digits ->
  In c ascii_digits -> In d ascii_digits ->
  first_index is_ascii_digit rxs [a; b; c; d; 48; 48]%N 0 =
    bin_index (digits_value [a; b; c; d]).
Proof.
  intros Ha Hb Hc Hd. apply index_eqb_eq.
  pose proof table_check as Ht.
  rewrite forallb_forall in Ht. specialize (Ht a Ha).
  rewrite forallb_forall in Ht. specialize (Ht b Hb).
  rewrite forallb_forall in Ht. specialize (Ht c Hc).
  rewrite forallb_forall in Ht. exact (Ht d Hd).
Qed.

(** X18: for a number that starts with six ASCII digits the answer is
    read off the first four of them: Visa for 4, American Express for 34 and
    37, JCB for 2131, 1800 and 35, MasterCard for 51 to 55, 2221 to 2229 and
    2720, and no provider for anything else, the MasterCard numbers from
    2230 to 2719 included. *)
Theorem get_card_provider_table (six rest : list N) :
  (forall c, is_ascii_digit c = true -> unicode_decimal c = true) ->
  List.length six = 6 ->
  forallb is_ascii_digit six = true ->
  get_card_provider (six ++ rest) =
    card_answer (bin_provider (digits_value (firstn 4 six))).
Proof.
  intros Hd Hlen Hall.
  destruct six as [|a [|b [|c [|d [|e [|f [|g six]]]]]]];
    try discriminate Hlen.
  cbn [forallb] in Hall.
  repeat (apply andb_true_iff in Hall; destruct Hall as [? Hall]).
  unfold get_card_provider. f_equal.
  change (firstn 6 ([a; b; c; d; e; f] ++ rest)) with [a; b; c; d; e; f].
  rewrite (first_provider_index _ _ _ 0), bin_provider_index.
  fold rxs.
  rewrite (first_index_ext unicode_decimal is_ascii_digit rxs
             [a; b; c; d; e; f] [a; b; c; d; 48; 48]%N).
  - rewrite (table_lookup a b c d) by (apply is_ascii_digit_In; assumption).
    change (firstn 4 [a; b; c; d; e; f]) with [a; b; c; d].
    destruct (bin_index (digits_value [a; b; c; d])) as [j|]; [|reflexivity].
    rewrite Nat.sub_0_r. reflexivity.
  - intros r Hin.
    pose proof rxs_tail_ok as Hok. rewrite forallb_forall in Hok.
    rewrite (re_match_tail unicode_decimal r [a; b; c; d; e; f]
               [a; b; c; d; 48; 48]%N Hd (Hok r Hin)).
    + apply re_match_ext.
      repeat (constructor; [rewrite Hd by (assumption || reflexivity);
                            symmetry; (assumption || reflexivity)|]).
      constructor.
    + cbn. repeat split; (assumption || reflexivity).
Qed.

End CardProviders.

(** ** The payloads of the client operations *)

Lemma py_len_prefix (n : nat) (s : string) :
  py_len (py_prefix n s) = Nat.min n (py_len s).
Proof.
  revert n. induction s as [|a s IH]; intros n; simpl.
  - rewrite Nat.min_0_r. reflexivity.
  - destruct (is_continuation a) eqn:E.
    + simpl. rewrite E. apply IH.
    + destruct n as [|n]; simpl; [reflexivity|]. rewrite E, IH. reflexivity.
Qed.

Lemma py_prefix_prefix (n : nat) (s : string) :
  String.prefix (py_prefix n s) s = true.
Proof.
  revert n. induction s as [|a s IH]; intros n; simpl; [reflexivity|].
  destruct (is_continuation a).
  - simpl. destruct (ascii_dec a a) as [_|Hne]; [apply IH | contradiction].
  - destruct n as [|n]; simpl; [reflexivity|].
    destruct (ascii_dec a a) as [_|Hne]; [apply IH | contradiction].
Qed.

Lemma py_in_EMPTY_VALUES (v : value) :
  py_in v EMPTY_VALUES =
    match v with
    | VNone => true
    | VStr s => String.eqb s ""
    | VList [] => true
    | _ => false
    end.
Proof.
  unfold py_in, EMPTY_VALUES.
  destruct v as [|b|z|s|[|x l]|d]; simpl; try reflexivity.
  rewrite orb_false_r. reflexivity.
Qed.

Lemma truthy_not_empty (v : value) :
  py_truthy v = true -> py_in v EMPTY_VALUES = false.
Proof.
  rewrite py_in_EMPTY_VALUES.
  destruct v as [|b|z|s|[|x l]|d]; simpl; try reflexivity; try discriminate.
  intros H. apply negb_true_iff in H. exact H.
Qed.

Lemma od_get_filter_none (f : string * value -> bool) (k : string) (l : odict) :
  od_get k l = None -> od_get k (filter f l) = None.
Proof.
  induction l as [|[k' v'] l IH]; simpl; [reflexivity|].
  destruct (String.eqb k k') eqn:E; [discriminate|]. intros H.
  destruct (f (k', v')); simpl; [rewrite E|]; apply IH; exact H.
Qed.

Lemma od_get_filter_wf (f : string * value -> bool) (k : string) (l : odict) :
  od_wf l = true ->
  od_get k (filter f l) =
    match od_get k l with
    | Some v => if f (k, v) then Some v else None
    | None => None
    end.
Proof.
  induction l as [|[k' v'] l IH]; simpl; [reflexivity|].
  intros H. apply andb_true_iff in H. destruct H as [Hk Hl].
  apply negb_true_iff in Hk.
  destruct (String.eqb k k') eqn:E.
  - apply String.eqb_eq in E. subst k'.
    destruct (f (k, v')); simpl.
    + rewrite String.eqb_refl. reflexivity.
    + apply od_get_filter_none. apply od_get_none_keys. exact Hk.
  - destruct (f (k', v')); simpl; [rewrite E|]; apply IH; exact Hl.
Qed.

Lemma od_wf_filter (f : string * value -> bool) (l : odict) :
  od_wf l = true -> od_wf (filter f l) = true.
Proof.
  induction l as [|[k v] l IH]; simpl; [reflexivity|].
  intros H. apply andb_true_iff in H. destruct H as [Hk Hl].
  destruct (f (k, v)); simpl; [|apply IH; exact Hl].
  rewrite (IH Hl), andb_true_r. apply negb_true_iff.
  apply od_get_none_keys. apply (od_get_filter_none f).
  apply od_get_none_keys. apply negb_true_iff in Hk. exact Hk.
Qed.

Section ClientPayloads.

Context {platform : Platform} {conf : Conf}.

(** [mk_payload] on pairs with distinct names. *)
Lemma mk_payload_wf (key : string) (pairs : odict) :
  od_wf pairs = true ->
  let fields := filter (fun kv => negb (py_in (snd kv) EMPTY_VALUES)) pairs in
  mk_payload key pairs =
    (signature <- sign fields key ;;
     Ok (od_set "signature" (VStr signature) fields)).
Proof.
  intros Hwf fields. unfold mk_payload. fold fields.
  rewrite (OrderedDict_wf fields); [reflexivity|].
  apply od_wf_filter. exact Hwf.
Qed.

(** X19: every payment that is initialised carries a cart.  When
    [payment_init] gets as far as a payload, the description has at most 255
    characters and the payload holds a non-empty 'cart': the cart given, or,
    for None, an empty list or any other false value, one item named by the
    first 20 characters of the description, of quantity 1 and of the total
    amount. *)
Theorem payment_init_sends_cart (self : CsobClient) (now : string)
    (order_no total_amount return_url : value) (description : string)
    (merchant_data cart customer_id currency language close_payment
     return_method pay_operation ttl_sec logo_version
     color_scheme_version : value) (p : odict) :
  payment_init_payload self now order_no total_amount return_url description
    merchant_data cart customer_id currency language close_payment
    return_method pay_operation ttl_sec logo_version color_scheme_version
    = Ok p ->
  py_len description <= 255 /\
  exists sent,
    od_get "cart" p = Some sent /\
    py_in sent EMPTY_VALUES = false /\
    (py_truthy cart = true -> sent = cart) /\
    (py_truthy cart = false ->
     exists name,
       sent = one_item_cart name total_amount /\
       String.prefix name description = true /\
       py_len name = Nat.min 20 (py_len description)).
Proof.
  unfold payment_init_payload. intros H.
  destruct (Nat.ltb 255 (py_len description)) eqn:Elen; [discriminate|].
  apply Nat.ltb_ge in Elen. split; [exact Elen|].
  cbv zeta in H.
  match type of H with
  | mk_payload _ ?l = _ => set (pairs := l) in H
  end.
  assert (Hwf : od_wf pairs = true) by reflexivity.
  assert (Hcart : od_get "cart" pairs =
            Some (if negb (py_truthy cart)
                  then one_item_cart (py_prefix 20 description) total_amount
                  else cart)) by reflexivity.
  clearbody pairs.
  rewrite (mk_payload_wf _ _ Hwf) in H. cbv zeta in H.
  match type of H with
  | (bind (sign ?fields _) _) = _ =>
      destruct (sign fields (key self)) as [s|e]; cbn [bind] in H;
      [|discriminate]
  end.
  injection H as <-.
  rewrite od_get_set_other by reflexivity.
  rewrite (od_get_filter_wf _ _ _ Hwf), Hcart. cbn [snd].
  destruct (py_truthy cart) eqn:Et; cbn [negb].
  - rewrite (truthy_not_empty cart Et). cbn [negb].
    exists cart. split; [reflexivity|].
    split; [exact (truthy_not_empty cart Et)|].
    split; [reflexivity | discriminate].
  - rewrite py_in_EMPTY_VALUES. cbn [one_item_cart negb].
    eexists. split; [reflexivity|]. split; [apply py_in_EMPTY_VALUES|].
    split; [discriminate|]. intros _.
    exists (py_prefix 20 description).
    split; [reflexivity|]. split; [apply py_prefix_prefix | apply py_len_prefix].
Qed.

Lemma fold_left_keep (g : string * value -> bool) (kwargs acc : odict) :
  fold_left (fun pairs kv => if g kv then pairs ++ [kv] else pairs) kwargs acc =
    acc ++ filter g kwargs.
Proof.
  revert acc. induction kwargs as [|kv kwargs IH]; intros acc; simpl.
  - rewrite app_nil_r. reflexivity.
  - rewrite IH. destruct (g kv); [|reflexivity].
    rewrite <- app_assoc. reflexivity.
Qed.

Lemma filter_idem (A : Type) (g : A -> bool) (l : list A) :
  filter g (filter g l) = filter g l.
Proof.
  induction l as [|x l IH]; simpl; [reflexivity|].
  destruct (g x) eqn:E; simpl; [rewrite E, IH|]; auto.
Qed.

(** X20: the filter of [req_payload] adds nothing to that of [mk_payload].
    [req_payload] returns what [mk_payload] returns for the three fixed
    fields followed by all the keyword arguments, empty or not; so a close
    or a refund of no amount builds the payload of a reversal. *)
Theorem req_payload_filter (self : CsobClient) (now : string) (pay_id : value)
    (kwargs : odict) :
  req_payload self now pay_id kwargs =
    mk_payload (key self)
      ([("merchantId", VStr (merchant_id self)); ("payId", pay_id);
        ("dttm", VStr now)] ++ kwargs) /\
  forall amount,
    py_in amount EMPTY_VALUES = true ->
    payment_close_payload self now pay_id amount =
      payment_reverse_payload self now pay_id /\
    payment_refund_payload self now pay_id amount =
      payment_reverse_payload self now pay_id.
Proof.
  split.
  - unfold req_payload, mk_payload. rewrite fold_left_keep.
    rewrite !filter_app, filter_idem. reflexivity.
  - intros amount H.
    unfold payment_close_payload, payment_refund_payload,
      payment_reverse_payload, req_payload.
    cbn [fold_left snd]. rewrite H. split; reflexivity.
Qed.

Lemma py_in_text (s : string) :
  s <> ""%string -> py_in (VStr s) EMPTY_VALUES = false.
Proof.
  intros H. rewrite py_in_EMPTY_VALUES. apply String.eqb_neq. exact H.
Qed.

Lemma filter_cons_keep (A : Type) (f : A -> bool) (x : A) (l : list A) :
  f x = true -> filter f (x :: l) = x :: filter f l.
Proof. intros H. simpl. rewrite H. reflexivity. Qed.

Lemma filter_cons_drop (A : Type) (f : A -> bool) (x : A) (l : list A) :
  f x = false -> filter f (x :: l) = filter f l.
Proof. intros H. simpl. rewrite H. reflexivity. Qed.

(** X21: what a payment with the default options signs.  For a merchant
    id, an order number, a clock reading, a return URL and a description that
    are not empty, a description of at most 255 characters and a total
    amount that is an integer, [payment_init] called with its four
    positional arguments builds fourteen fields and their signature, and the
    message that is signed joins, in this order: merchant id, order number,
    time, 'payment', 'card', amount, 'CZK', 'true', return URL, 'POST', the
    first 20 characters of the description, '1', amount again, description,
    'CZ' and '600'. *)
Theorem payment_init_default_message (self : CsobClient) (now : string)
    (order_no : value) (amount : Z) (url description : string) :
  merchant_id self <> ""%string ->
  py_str order_no <> ""%string ->
  now <> ""%string ->
  url <> ""%string ->
  description <> ""%string ->
  py_len description <= 255 ->
  let name := py_prefix 20 description in
  let fields :=
    [("merchantId", VStr (merchant_id self));
     ("orderNo", VStr (py_str order_no));
     ("dttm", VStr now);
     ("payOperation", VStr "payment");
     ("payMethod", VStr "card");
     ("totalAmount", VInt amount);
     ("currency", VStr "CZK");
     ("closePayment", VBool true);
     ("returnUrl", VStr url);
     ("returnMethod", VStr "POST");
     ("cart", one_item_cart name (VInt amount));
     ("description", VStr description);
     ("language", VStr "CZ");
     ("ttlSec", VInt 600)] in
  payment_init_default self now order_no (VInt amount) (VStr url) description =
    (signature <- sign fields (key self) ;;
     Ok (fields ++ [("signature", VStr signature)])) /\
  mk_msg_for_sign fields =
    Ok (encode_utf8
          (String.concat "|"
             [merchant_id self; py_str order_no; now; "payment"; "card";
              str_of_Z amount; "CZK"; "true"; url; "POST";
              name; "1"; str_of_Z amount; description; "CZ"; "600"])).
Proof.
  intros Hm Ho Hn Hu Hd Hlen name fields.
  split.
  - unfold payment_init_default, payment_init_payload.
    apply Nat.ltb_ge in Hlen. rewrite Hlen.
    cbv zeta.
    match goal with
    | |- mk_payload _ ?l = _ => set (pairs := l)
    end.
    assert (Hwf : od_wf pairs = true) by reflexivity.
    assert (Hf : filter (fun kv => negb (py_in (snd kv) EMPTY_VALUES)) pairs =
                 fields).
    { unfold pairs.
      repeat first
        [ rewrite filter_cons_keep
            by (cbn [snd];
                first [ reflexivity
                      | rewrite py_in_text by assumption; reflexivity ])
        | rewrite filter_cons_drop by reflexivity ].
      reflexivity. }
    rewrite (mk_payload_wf _ _ Hwf). cbv zeta. rewrite Hf.
    destruct (sign fields (key self)) as [signature|e]; cbn [bind];
      [rewrite od_set_fresh by reflexivity|]; reflexivity.
  - unfold mk_msg_for_sign.
    assert (Hw : without_None fields = fields) by reflexivity.
    rewrite Hw.
    replace (od_get "cart" fields) with (Some (one_item_cart name (VInt amount)))
      by reflexivity.
    rewrite py_in_EMPTY_VALUES.
    cbn [one_item_cart negb py_iter bind extend_cart_msg py_values].
    do 2 f_equal.
    transitivity
      (String.concat "|"
         ([merchant_id self; py_str order_no; now; "payment"; "card";
           str_of_Z amount; "CZK"; "true"; url; "POST"]
          ++ (name ++ "|" ++ ("1" ++ "|" ++ str_of_Z amount))%string
          :: [description; "CZ"; "600"])); [reflexivity|].
    rewrite concat_split_value.
    transitivity
      (String.concat "|"
         ([merchant_id self; py_str order_no; now; "payment"; "card";
           str_of_Z amount; "CZK"; "true"; url; "POST"; name]
          ++ ("1" ++ "|" ++ str_of_Z amount)%string
          :: [description; "CZ"; "600"])); [reflexivity|].
    rewrite concat_split_value. reflexivity.
Qed.

End ClientPayloads.

(** ** Closed instances of the further properties *)

Lemma toy_listing_verified (listed : value) :
  @primary_verified toy_platform gateway_conf
    (response_of (body_listing listed)) toy_pub (body_listing listed).
Proof.
  split; [reflexivity|]. split; [reflexivity|].
  exists (VStr (match @sign toy_platform status_fields toy_priv with
                | Ok s => s
                | Raise _ => ""
                end)).
  split; vm_compute; reflexivity.
Qed.

Lemma toy_stringly_convert :
  @ints_convert toy_platform
    (select_keys (@RESPONSE_KEYS gateway_conf) stringly_fields).
Proof.
  unfold ints_convert.
  replace (select_keys RESPONSE_KEYS stringly_fields)
    with stringly_fields by (vm_compute; reflexivity).
  repeat (apply Forall_cons;
          [intros H; vm_compute in H; try discriminate H; eexists; reflexivity|]).
  apply Forall_nil.
Qed.

Lemma toy_status_typed :
  Forall (fun kv => int_typed (fst kv) = true -> exists z, snd kv = VInt z)
    (@recognized_fields gateway_conf (body_listing (VList []))).
Proof.
  replace (recognized_fields (body_listing (VList [])))
    with status_fields by (vm_compute; reflexivity).
  repeat (apply Forall_cons;
          [intros H; vm_compute in H; try discriminate H; eexists; reflexivity|]).
  apply Forall_nil.
Qed.

Lemma field_names_not_signed_witness :
  @mk_msg_for_sign toy_platform
    (rename_fields (fun k => ("x-" ++ k)%string) status_fields)
    = @mk_msg_for_sign toy_platform status_fields /\
  @sign toy_platform
    (rename_fields (fun k => ("x-" ++ k)%string) status_fields) toy_priv
    = @sign toy_platform status_fields toy_priv /\
  @verify toy_platform
    (rename_fields (fun k => ("x-" ++ k)%string) status_fields) (VStr "021e")
    toy_pub
    = @verify toy_platform status_fields (VStr "021e") toy_pub.
Proof.
  apply (field_names_not_signed (platform := toy_platform)); reflexivity.
Defined.

Lemma separator_not_escaped_witness :
  @mk_msg_for_sign toy_platform
    [("orderNo", VStr "666"); ("description", VStr "1|CZK")]
    = @mk_msg_for_sign toy_platform
        [("orderNo", VStr "666"); ("totalAmount", VStr "1");
         ("currency", VStr "CZK")] /\
  @verify toy_platform
    [("orderNo", VStr "666"); ("description", VStr "1|CZK")] (VStr "0000")
    toy_pub
    = @verify toy_platform
        [("orderNo", VStr "666"); ("totalAmount", VStr "1");
         ("currency", VStr "CZK")] (VStr "0000") toy_pub.
Proof.
  apply (separator_not_escaped (platform := toy_platform)
           [("orderNo", VStr "666")] [] "description" "totalAmount" "currency"
           "1" "CZK" (VStr "0000") toy_pub); reflexivity.
Defined.

Lemma mk_payload_invariants_witness :
  od_wf (toy_signed echo_pairs) = true /\
  od_get "description" (toy_signed echo_pairs) = None.
Proof.
  pose proof (mk_payload_invariants (platform := toy_platform) toy_priv
                echo_pairs (toy_signed echo_pairs) eq_refl) as H.
  cbv zeta in H. destruct H as (Hwf & _ & Hget & _).
  split; [exact Hwf|]. rewrite Hget; reflexivity.
Defined.

Lemma mk_payload_verifies_witness :
  exists p s,
    @mk_payload toy_platform toy_priv echo_pairs = Ok p /\
    od_get "signature" p = Some (VStr s) /\
    @verify toy_platform (od_remove "signature" p) (VStr s) toy_pub = Ok true.
Proof.
  apply (mk_payload_verifies (platform := toy_platform) toy_priv toy_pub
           echo_pairs toy_base64 toy_key_pair); reflexivity.
Defined.

Lemma unimportable_key_witness :
  @sign toy_platform init_fields "NO KEY" = Raise ValueError /\
  @verify toy_platform init_fields (VStr "0000") "NO KEY" = Raise ValueError.
Proof.
  apply (unimportable_key (platform := toy_platform) init_fields "NO KEY"
           (VStr "0000")); reflexivity.
Defined.

Lemma returned_payload_verified_witness :
  exists body signature payload,
    http_ok (response_of (toy_signed status_fields)) = true /\
    json_body (response_of (toy_signed status_fields)) = Some (VDict body) /\
    od_get "signature" body = Some signature /\
    resp_payload
      (mkResponse 200 (Some (VDict (toy_signed status_fields)))
         (Some status_fields) (Some [])) = Some payload /\
    @verify toy_platform payload signature toy_pub = Ok true /\
    od_wf payload = true /\
    od_get "signature" payload = None /\
    forall k v,
      od_get k payload = Some v ->
      In k (@RESPONSE_KEYS gateway_conf) /\ od_get k body = Some v.
Proof.
  apply (returned_payload_verified (platform := toy_platform)
           (conf := gateway_conf)).
  vm_compute. reflexivity.
Defined.

Lemma returned_extensions_verified_witness :
  exists body exts,
    json_body (response_of (status_body [ext_maskClnRP; ext_other])) =
      Some (VDict body) /\
    resp_extensions
      (mkResponse 200
         (Some (VDict (status_body [ext_maskClnRP; ext_other])))
         (Some status_fields) (Some [ext_fields "maskClnRP"])) = Some exts /\
    Forall (@verified_extension toy_platform toy_pub body) exts /\
    Forall (fun o => forall k, In k (od_keys o) -> In k maskclnrp_keys) exts.
Proof.
  apply (returned_extensions_verified (platform := toy_platform)
           (conf := gateway_conf)).
  vm_compute. reflexivity.
Defined.

Lemma verified_without_extensions_witness :
  @validate_response toy_platform gateway_conf
    (response_of (body_listing (VList []))) toy_pub =
  (mkResponse 200 (Some (VDict (body_listing (VList []))))
     (Some status_fields) (Some []),
   Ok (mkResponse 200 (Some (VDict (body_listing (VList []))))
         (Some status_fields) (Some []))).
Proof.
  rewrite (verified_without_extensions (platform := toy_platform)
             (conf := gateway_conf) _ toy_pub (body_listing (VList []))
             gateway_conf_NoDup (toy_listing_verified _)).
  - reflexivity.
  - right. exists (VList []). split; reflexivity.
Defined.

Lemma signed_payload_validates_witness :
  exists body,
    @mk_payload toy_platform toy_priv
      (status_fields ++ [("merchantData", VStr "")]) = Ok body /\
    forall response,
      http_ok response = true ->
      json_body response = Some (VDict body) ->
      exists r,
        @validate_response toy_platform gateway_conf response toy_pub =
          (r, Ok r) /\
        resp_payload r = Some status_fields /\
        resp_extensions r = Some [].
Proof.
  apply (signed_payload_validates (platform := toy_platform)
           (conf := gateway_conf) toy_priv toy_pub
           (status_fields ++ [("merchantData", VStr "")])
           toy_base64 toy_key_pair gateway_conf_NoDup); reflexivity.
Defined.

Lemma malformed_extension_entry_witness :
  snd (@validate_response toy_platform gateway_conf
         (response_of (body_listing (VList [VDict ext_maskClnRP; VInt 5])))
         toy_pub) = Raise TypeError /\
  snd (@validate_response toy_platform gateway_conf
         (response_of
            (body_listing (VList [VDict ext_maskClnRP; VDict [("note", VStr "n")]])))
         toy_pub) = Raise (KeyError "extension").
Proof.
  split.
  - apply (proj1 (malformed_extension_entry (platform := toy_platform)
                    (conf := gateway_conf) _ toy_pub _ [ext_maskClnRP] (VInt 5) []
                    gateway_conf_NoDup (toy_listing_verified _) eq_refl
                    (Forall_cons _ ext_maskClnRP_passes (Forall_nil _)))).
    reflexivity.
  - apply (proj2 (malformed_extension_entry (platform := toy_platform)
                    (conf := gateway_conf) _ toy_pub _ [ext_maskClnRP]
                    (VDict [("note", VStr "n")]) []
                    gateway_conf_NoDup (toy_listing_verified _) eq_refl
                    (Forall_cons _ ext_maskClnRP_passes (Forall_nil _)))
             [("note", VStr "n")]); reflexivity.
Defined.

Lemma extensions_not_iterable_witness :
  @validate_response toy_platform gateway_conf
    (response_of (body_listing (VInt 5))) toy_pub =
  (mkResponse 200 (Some (VDict (body_listing (VInt 5))))
     (Some status_fields) (Some []),
   Raise TypeError).
Proof.
  apply (proj2 (extensions_not_iterable (platform := toy_platform)
                  (conf := gateway_conf) _ toy_pub (body_listing (VInt 5))
                  (VInt 5) TypeError gateway_conf_NoDup
                  (toy_listing_verified _) eq_refl eq_refl)).
Defined.

Lemma gateway_return_conversion_error_witness :
  @gateway_return toy_platform gateway_conf toy_client
    [("payId", VStr "34ae55eb69e2cBF"); ("resultCode", VStr "none");
     ("signature", VStr "0000")] = Raise ValueError.
Proof.
  apply (gateway_return_conversion_error (platform := toy_platform)
           (conf := gateway_conf) toy_client _
           ["payId"; "customerId"; "dttm"]
           ["resultMessage"; "paymentStatus"; "authCode"; "merchantData"]
           "resultCode" (VStr "none") ValueError eq_refl).
  - apply Forall_cons; [intros H; discriminate H | apply Forall_nil].
  - reflexivity.
  - reflexivity.
  - reflexivity.
Defined.

Lemma gateway_return_signature_errors_witness :
  @gateway_return toy_platform gateway_conf toy_client stringly_fields =
    Raise (KeyError "signature").
Proof.
  apply (proj1 (gateway_return_signature_errors (platform := toy_platform)
                  (conf := gateway_conf) toy_client stringly_fields
                  gateway_conf_NoDup toy_stringly_convert)).
  reflexivity.
Defined.

Lemma validators_agree_witness :
  @gateway_return toy_platform gateway_conf toy_client
    (body_listing (VList [])) = Ok status_fields /\
  resp_payload
    (fst (@validate_response toy_platform gateway_conf
            (response_of (body_listing (VList []))) toy_pub))
    = Some status_fields.
Proof.
  apply (validators_agree (platform := toy_platform) (conf := gateway_conf)
           toy_client (response_of (body_listing (VList [])))
           (body_listing (VList [])) gateway_conf_NoDup eq_refl
           (toy_listing_verified _) toy_status_typed).
Defined.

Lemma no_provider_without_six_digits_witness :
  @get_card_provider toy_cards (chars_of "4234-5678") = Some (None, None).
Proof.
  apply (no_provider_without_six_digits (cards := toy_cards)).
  right. reflexivity.
Defined.

Lemma get_card_provider_table_witness :
  @get_card_provider toy_cards (chars_of "423451" ++ chars_of "****111")
    = Some (Some "VISA"%string, Some "card VISA"%string).
Proof.
  rewrite (get_card_provider_table (cards := toy_cards) (chars_of "423451")
             (chars_of "****111") (fun c H => H) eq_refl eq_refl).
  reflexivity.
Defined.

Lemma payment_init_sends_cart_witness :
  py_len toy_description <= 255 /\
  exists sent,
    od_get "cart" toy_init_payload = Some sent /\
    py_in sent EMPTY_VALUES = false /\
    (py_truthy VNone = true -> sent = VNone) /\
    (py_truthy VNone = false ->
     exists name,
       sent = one_item_cart name (VInt 12345) /\
       String.prefix name toy_description = true /\
       py_len name = Nat.min 20 (py_len toy_description)).
Proof.
  apply (payment_init_sends_cart (platform := toy_platform) toy_client toy_now
           (VInt 666) (VInt 12345) (VStr "https://shop/return")
           toy_description VNone VNone VNone (VStr "CZK") (VStr "CZ")
           (VBool true) (VStr "POST") (VStr "payment") (VInt 600) VNone VNone).
  vm_compute. reflexivity.
Defined.

Lemma payment_init_default_message_witness :
  @mk_msg_for_sign toy_platform (od_remove "signature" toy_init_payload) =
    Ok (encode_utf8
          ("MERCHANT|666|20230101120000|payment|card|12345|CZK|true|"
           ++ "https://shop/return|POST|Order 666 from the s|1|12345|"
           ++ "Order 666 from the shop XYZ|CZ|600")).
Proof.
  pose proof (payment_init_default_message (platform := toy_platform)
                toy_client toy_now (VInt 666) 12345 "https://shop/return"
                toy_description) as H.
  cbv zeta in H.
  destruct H as [_ H]; try discriminate.
  - apply Nat.leb_le. reflexivity.
  - exact H.
Defined.
